(** * s2-downloader: a shallow embedding of [utils.py]

    The helpers of [utils.py] are embedded as functions over an explicit
    world (files on disk, the messages sent to the host application, the
    trace of network calls).  Python exceptions are an outcome of their
    own; the collaborators the repository treats as opaque (the HTTP
    session, GDAL, the geometry engine of the host) are the fields of a
    record [Host] which every helper receives. *)

From Stdlib Require Import Ascii PrimFloat FloatOps SpecFloat.
From stdpp Require Import base option list strings gmap pretty.

#[local] Set Warnings "-register-all".
Local Open Scope Z_scope.

(** ** Python values *)

(** Values that travel through the catalogue responses: what
    [response.json()] produces.  An object is the association list of its
    members (first binding wins); [JObj []] is the [{}] that the source
    passes as default to every [.get]. *)
Inductive json : Type :=
| JNull
| JBool (b : bool)
| JNum (z : Z)
| JFloat (f : float)
| JStr (s : string)
| JArr (l : list json)
| JObj (kv : list (string * json)).

Inductive Exn : Type :=
| TypeError (detail : string)
| AttributeError (detail : string)
| ValueError (detail : string)
| OverflowError (detail : string)
| RequestException (detail : string)
| RuntimeError (detail : string)
| OSError (detail : string).

(** [except requests.exceptions.RequestException] *)
Definition is_RequestException (e : Exn) : bool :=
  match e with RequestException _ => true | _ => false end.

(** [except Exception] *)
Definition is_Exception (e : Exn) : bool := true.

Fixpoint assoc (k : string) (kv : list (string * json)) : option json :=
  match kv with
  | [] => None
  | (k', v) :: kv' => if String.eqb k k' then Some v else assoc k kv'
  end.

(** [v.get(k, d)]: only a dict has the method. *)
Definition py_get (v : json) (k : string) (d : json) : Exn + json :=
  match v with
  | JObj kv => inr (default d (assoc k kv))
  | _ => inl (AttributeError "object has no attribute 'get'")
  end.

Fixpoint chars (s : string) : list json :=
  match s with
  | EmptyString => []
  | String a s' => JStr (String a EmptyString) :: chars s'
  end.

(** [for x in v]: a list yields its items, a dict its keys, a string its
    characters; nothing else is iterable. *)
Definition py_iter (v : json) : Exn + list json :=
  match v with
  | JArr l => inr l
  | JObj kv => inr (map (fun p => JStr (fst p)) kv)
  | JStr s => inr (chars s)
  | _ => inl (TypeError "object is not iterable")
  end.

(** [v == s] for a string literal [s]. *)
Definition py_eq_str (v : json) (s : string) : bool :=
  match v with
  | JStr t => String.eqb t s
  | _ => false
  end.

(** [v is None] *)
Definition is_None (v : json) : bool :=
  match v with JNull => true | _ => false end.

(** Truncation of a finite binary64 value towards zero. *)
Definition trunc_float (f : float) : Exn + Z :=
  match Prim2SF f with
  | S754_zero _ => inr 0
  | S754_infinity _ => inl (OverflowError "cannot convert float infinity to integer")
  | S754_nan => inl (ValueError "cannot convert float NaN to integer")
  | S754_finite s m e =>
      let a := match e with
               | Z0 => Zpos m
               | Zpos p => Z.shiftl (Zpos m) (Zpos p)
               | Zneg p => Z.shiftr (Zpos m) (Zpos p)
               end in
      inr (if s then - a else a)
  end.

(** ** [os.path.splitext]

    The generic [_splitext] of the Python library, over the separators of
    the platform: [sep] is [/] on POSIX and the backslash on Windows,
    where [altsep] is [/]. *)
Inductive OsPath : Type := posixpath | ntpath.

Definition sep (os : OsPath) : ascii :=
  match os with posixpath => "/"%char | ntpath => "\"%char end.
Definition altsep (os : OsPath) : option ascii :=
  match os with posixpath => None | ntpath => Some "/"%char end.

Definition extsep : ascii := "."%char.

Fixpoint rfind_from (c : ascii) (s : string) (i acc : Z) : Z :=
  match s with
  | EmptyString => acc
  | String a s' => rfind_from c s' (i + 1) (if Ascii.eqb a c then i else acc)
  end.

(** [p.rfind(c)]: the last index of [c], or -1. *)
Definition rfind (c : ascii) (p : string) : Z := rfind_from c p 0 (-1).

(** The [while filenameIndex < dotIndex] scan: is there a character other
    than a dot among the [n] characters from index [i]? *)
Fixpoint scan_leading_dots (p : string) (i n : nat) : bool :=
  match n with
  | O => false
  | S n' =>
      match String.get i p with
      | Some a => if Ascii.eqb a extsep then scan_leading_dots p (S i) n' else true
      | None => true
      end
  end.

Definition _splitext (os : OsPath) (p : string) : string * string :=
  let sepIndex :=
    match altsep os with
    | Some a => Z.max (rfind (sep os) p) (rfind a p)
    | None => rfind (sep os) p
    end in
  let dotIndex := rfind extsep p in
  if (sepIndex <? dotIndex)
     && scan_leading_dots p (Z.to_nat (sepIndex + 1)) (Z.to_nat (dotIndex - (sepIndex + 1)))
  then (String.substring 0 (Z.to_nat dotIndex) p,
        String.substring (Z.to_nat dotIndex) (String.length p - Z.to_nat dotIndex)%nat p)
  else (p, "").

(** [os.path.splitext(p)]: anything but a string is refused. *)
Definition splitext (os : OsPath) (p : json) : Exn + (string * string) :=
  match p with
  | JStr s => inr (_splitext os s)
  | _ => inl (TypeError "expected str, bytes or os.PathLike object")
  end.

Example splitext_tif :
  _splitext ntpath "https://host/tiles/33/U/TCI.tif" = ("https://host/tiles/33/U/TCI", ".tif").
Proof. reflexivity. Qed.

Example splitext_hidden : _splitext posixpath "/data/.bashrc" = ("/data/.bashrc", "").
Proof. reflexivity. Qed.

Example splitext_dotdir : _splitext posixpath "/data.d/readme" = ("/data.d/readme", "").
Proof. reflexivity. Qed.

(** ** Geometry and HTTP data *)

Record Point : Type := { X : float; Y : float }.
Record Extent : Type := { XMin : float; YMin : float; XMax : float; YMax : float }.

(** An [arcpy.Polygon]: its vertices and the factory code of its spatial
    reference. *)
Record Polygon : Type := { vertices : list Point; factoryCode : Z }.

Record Params : Type := {
  p_bbox : string;
  p_datetime : string;
  p_collections : list string;
  p_limit : Z;
  p_sortby : string
}.

(** [session.get(url=..., params=...)]; the URL is whatever value the loop
    variable holds. *)
Record Request : Type := { req_url : json; req_params : option Params }.

Record Response : Type := {
  status_code : Z;
  body_json : Exn + json;   (* response.json() *)
  text : string             (* response.text *)
}.

Inductive Dataset : Type := Ds (source : string).

(** [requests.Session] as [get_session] configures it. *)
Record Session : Type := {
  retry_total : Z;
  backoff_factor : float;
  status_forcelist : list Z;
  mounted : string
}.

(** ** The world *)

Inductive LogEntry : Type :=
| AddMessage (msg : string)
| AddError (msg : string) (exc : option Exn).  (* [exc]: the exception whose
                                                   [traceback.format_exc()] ends the message *)

Inductive NetEvent : Type :=
| EvGet (req : Request) (out : Exn + Response)
| EvOpen (url : string) (out : Exn + option Dataset).

Record World : Type := mkWorld {
  fs : gmap string string;     (* the files on disk and their contents *)
  log : list LogEntry;         (* arcpy.AddMessage / arcpy.AddError, oldest first *)
  net : list NetEvent;         (* raster opens and HTTP requests, oldest first *)
  env_extent : string          (* arcpy.env.extent *)
}.

Definition with_fs (f : gmap string string → gmap string string) (w : World) : World :=
  mkWorld (f (fs w)) (log w) (net w) (env_extent w).
Definition with_log (l : LogEntry) (w : World) : World :=
  mkWorld (fs w) (log w ++ [l]) (net w) (env_extent w).
Definition with_net (ev : NetEvent) (w : World) : World :=
  mkWorld (fs w) (log w) (net w ++ [ev]) (env_extent w).
Definition with_env_extent (s : string) (w : World) : World :=
  mkWorld (fs w) (log w) (net w) s.

(** The collaborators: each answer may depend on everything that happened
    so far. *)
Record Host : Type := {
  os_path : OsPath;
  path_join : string → string → string;                 (* os.path.join *)
  float_str : float → string;                           (* a float inside an f-string *)
  str_other : json → string;                            (* str() of a list, dict or float *)
  int_str : string → Exn + Z;                           (* int() of a string *)
  strftime : json → string → Exn + string;              (* value.strftime(format) *)
  session_get : Session → World → Request → Exn + Response;
  gdal_OpenEx : World → string → Exn + option Dataset;
  gdal_Translate : World → string → Dataset → Exn + option string;
  arcpy_Clip : World → string → string → Polygon → Exn * option string + string;
  SpatialReference : json → Exn + Z;                    (* arcpy.SpatialReference(code) *)
  projectAs : Polygon → Z → Exn + Polygon;
  extent : Polygon → Extent
}.

(** ** Outcomes *)

Inductive Res (A : Type) : Type :=
| Returns (a : A) (w : World)
| Raises (e : Exn) (w : World).
Arguments Returns {A} a w.
Arguments Raises {A} e w.

Definition M (A : Type) : Type := World → Res A.

Definition ret {A} (a : A) : M A := fun w => Returns a w.
Definition bind {A B} (m : M A) (k : A → M B) : M B :=
  fun w => match m w with
           | Returns a w' => k a w'
           | Raises e w' => Raises e w'
           end.

Notation "'let*' x := m 'in' k" := (bind m (fun x => k))
  (at level 10, x name, m at level 100, k at level 200).
Notation "m ;; k" := (bind m (fun _ => k))
  (at level 100, k at level 200, right associativity).

(** The value or exception of a pure library call. *)
Definition lift {A} (r : Exn + A) : M A :=
  fun w => match r with inr a => Returns a w | inl e => Raises e w end.

Definition add_message (s : string) : M unit :=
  fun w => Returns tt (with_log (AddMessage s) w).
Definition add_error (s : string) (exc : option Exn) : M unit :=
  fun w => Returns tt (with_log (AddError s exc) w).

(** [try: body except <covers> as e: arcpy.AddError(msg + format_exc()); raise] *)
Definition handle {A} (covers : Exn → bool) (msg : string) (r : Res A) : Res A :=
  match r with
  | Returns a w' => Returns a w'
  | Raises e w' =>
      if covers e then Raises e (with_log (AddError msg (Some e)) w')
      else Raises e w'
  end.
Definition try_except {A} (covers : Exn → bool) (msg : string) (body : M A) : M A :=
  fun w => handle covers msg (body w).

(** [os.path.exists(p)] *)
Definition path_exists (p : string) : M bool :=
  fun w => Returns (bool_decide (is_Some (fs w !! p))) w.

(** Sequencing inside [Exn + _]. *)
Definition ebind {A B} (r : Exn + A) (k : A → Exn + B) : Exn + B :=
  match r with inl e => inl e | inr a => k a end.
Notation "'let?' x := r 'in' k" := (ebind r (fun x => k))
  (at level 10, x name, r at level 100, k at level 200).

(** [str(v)], as an f-string formats a value. *)
Definition py_str (h : Host) (v : json) : string :=
  match v with
  | JStr s => s
  | JNull => "None"
  | JBool true => "True"
  | JBool false => "False"
  | JNum z => pretty z
  | _ => str_other h v
  end.

(** [int(v)] *)
Definition py_int (h : Host) (v : json) : Exn + Z :=
  match v with
  | JNum z => inr z
  | JBool b => inr (if b then 1 else 0)
  | JFloat f => trunc_float f
  | JStr s => int_str h s
  | _ => inl (TypeError "int() argument must be a string, a bytes-like object or a real number")
  end.

(** ** The helpers of [utils.py] *)

Definition stac_url : string := "https://earth-search.aws.element84.com/v1/search".
Definition stac_collections : list string := ["sentinel-2-l2a"].

Definition get_iso_date (h : Host) (date_str : json) : M string :=
  try_except is_Exception "Error converting date to ISO format: "
    (lift (strftime h date_str "%Y-%m-%d")).

Definition buffer_extent (h : Host) (extent_poly : Polygon) (buffer : float)
  : M (string * Polygon) :=
  try_except is_Exception "Error creating buffered extent: "
    (let* extent_poly_wgs84 :=
       if bool_decide (factoryCode extent_poly ≠ 4326)
       then lift (projectAs h extent_poly 4326)
       else ret extent_poly in
     let buffer_dd := (buffer / 100000)%float in
     let x_min := (XMin (extent h extent_poly_wgs84) - buffer_dd)%float in
     let x_max := (XMax (extent h extent_poly_wgs84) + buffer_dd)%float in
     let y_min := (YMin (extent h extent_poly_wgs84) - buffer_dd)%float in
     let y_max := (YMax (extent h extent_poly_wgs84) + buffer_dd)%float in
     let buff_bb_wgs84 :=
       float_str h x_min +:+ "," +:+ float_str h y_min +:+ "," +:+
       float_str h x_max +:+ "," +:+ float_str h y_max in
     let poly_array :=
       [ {| X := x_min; Y := y_min |};
         {| X := x_min; Y := y_max |};
         {| X := x_max; Y := y_max |};
         {| X := x_max; Y := y_min |};
         {| X := x_min; Y := y_min |} ] in
     let buff_poly_wgs84 := {| vertices := poly_array; factoryCode := 4326 |} in
     ret (buff_bb_wgs84, buff_poly_wgs84)).

Definition get_session : M Session :=
  try_except is_RequestException "Error creating session: "
    (ret {| retry_total := 5;
            backoff_factor := 0x1.999999999999ap-4%float;  (* 0.1 *)
            status_forcelist := [500; 502; 503; 504];
            mounted := "https://" |}).

(** One entry of [scene_info["scenes"]]. *)
Record sc_info : Type := {
  scene_datetime : json;
  scene_id : json;
  scene_uri : json;
  ql_url : json;
  vis_url : json;
  mtd_url : json;
  cloud_cover : json;
  epsg_code : json;
  bbox : json
}.

Definition empty_dict : json := JObj [].

(** [v.get(k1, {}).get(k2, {})] and its three-level form. *)
Definition get2 (v : json) (k1 k2 : string) : Exn + json :=
  let? a := py_get v k1 empty_dict in py_get a k2 empty_dict.
Definition get3 (v : json) (k1 k2 k3 : string) : Exn + json :=
  let? a := py_get v k1 empty_dict in
  let? b := py_get a k2 empty_dict in py_get b k3 empty_dict.

Definition make_sc_info (feature : json) : Exn + sc_info :=
  let? dt := get2 feature "properties" "datetime" in
  let? id := py_get feature "id" empty_dict in
  let? uri := get2 feature "properties" "s2:product_uri" in
  let? ql := get3 feature "assets" "thumbnail" "href" in
  let? vis := get3 feature "assets" "visual" "href" in
  let? mtd := get3 feature "assets" "granule_metadata" "href" in
  let? cc := get2 feature "properties" "eo:cloud_cover" in
  let? epsg := get2 feature "properties" "proj:epsg" in
  let? bb := py_get feature "bbox" empty_dict in
  inr {| scene_datetime := dt; scene_id := id; scene_uri := uri; ql_url := ql;
         vis_url := vis; mtd_url := mtd; cloud_cover := cc; epsg_code := epsg;
         bbox := bb |}.

(** [for link in links: if link.get("rel", {}) == "next": url = link.get("href", {})] *)
Fixpoint follow_links (links : list json) (url : json) : Exn + json :=
  match links with
  | [] => inr url
  | link :: rest =>
      let? rel := py_get link "rel" empty_dict in
      if py_eq_str rel "next"
      then let? href := py_get link "href" empty_dict in follow_links rest href
      else follow_links rest url
  end.

(** [defaultdict(list)]: a missing key reads as the empty list. *)
Definition dd_get (d : gmap string (list sc_info)) (k : string) : list sc_info :=
  default [] (d !! k).

(** [for feature in features: scene_info["scenes"].append(sc_info)] *)
Fixpoint append_features (features : list json) (scene_info : gmap string (list sc_info))
  : Exn + gmap string (list sc_info) :=
  match features with
  | [] => inr scene_info
  | feature :: rest =>
      let? sc := make_sc_info feature in
      append_features rest (<["scenes" := (dd_get scene_info "scenes" ++ [sc])%list]> scene_info)
  end.

(** The variables of the [while] loop. *)
Record LoopState : Type := {
  url : json;
  request_count : Z;
  matched : Z;
  returned : Z;
  scene_info : gmap string (list sc_info)
}.

Inductive Flow : Type := Continue (st : LoopState) | Break (st : LoopState).

Definition limit : Z := 50.

(** [session.get(...)], recorded in the trace. *)
Definition http_get (h : Host) (session : Session) (req : Request) : M Response :=
  fun w =>
    let out := session_get h session w req in
    let w' := with_net (EvGet req out) w in
    match out with inr r => Returns r w' | inl e => Raises e w' end.

(** The request of the next turn of the loop. *)
Definition next_request (params : Params) (st : LoopState) : Request :=
  if request_count st =? 1
  then {| req_url := url st; req_params := Some params |}
  else {| req_url := url st; req_params := None |}.

(** One turn of the loop body. *)
Definition search_iter (h : Host) (session : Session) (params : Params) (st : LoopState)
  : M Flow :=
  let* response := http_get h session (next_request params st) in
  if negb (status_code response =? 200)
  then (add_error ("Error in request: " +:+ pretty (status_code response)) None;;
        ret (Break st))
  else
    let* response_json := lift (body_json response) in
    let* matched' := lift (let? c := get2 response_json "context" "matched" in py_int h c) in
    let* returned' := lift (let? c := get2 response_json "context" "returned" in py_int h c) in
    (add_message ("limit : " +:+ pretty limit +:+ ", matched : " +:+ pretty matched' +:+
                  ", returned : " +:+ pretty returned' +:+ ")");;
     let* links := lift (let? l := py_get response_json "links" empty_dict in py_iter l) in
     let* url' := lift (follow_links links (url st)) in
     let* features := lift (let? l := py_get response_json "features" empty_dict in py_iter l) in
     let* scene_info' := lift (append_features features (scene_info st)) in
     ret (Continue {| url := url'; request_count := request_count st + 1;
                      matched := matched'; returned := returned';
                      scene_info := scene_info' |})).

(** [while returned != 0: ...]; [None] when the fuel is spent before the
    loop is left. *)
Fixpoint search_loop (h : Host) (session : Session) (params : Params)
    (fuel : nat) (st : LoopState) (w : World) : option (Res (gmap string (list sc_info))) :=
  if returned st =? 0 then Some (Returns (scene_info st) w)
  else
    match fuel with
    | O => None
    | S fuel' =>
        match search_iter h session params st w with
        | Returns (Continue st') w' => search_loop h session params fuel' st' w'
        | Returns (Break st') w' => Some (Returns (scene_info st') w')
        | Raises e w' => Some (Raises e w')
        end
    end.

(** The [params] dictionary of the first request. *)
Definition search_params (b_box start_date end_date : string) (collections : list string)
  : Params :=
  {| p_bbox := b_box;
     p_datetime := start_date +:+ "T00:00:00Z/" +:+ end_date +:+ "T23:59:59Z";
     p_collections := collections;
     p_limit := limit;
     p_sortby := "+properties.datetime" |}.

(** The variables as set before the loop. *)
Definition initial_state (url0 : json) : LoopState :=
  {| url := url0; request_count := 1; matched := -9999; returned := -9999; scene_info := ∅ |}.

Definition search_stac (h : Host) (fuel : nat) (url0 : json) (b_box start_date end_date : string)
    (collections : list string) (w : World) : option (Res (gmap string (list sc_info))) :=
  let handler := handle is_RequestException "Error while searching STAC: " in
  match get_session w with
  | Raises e w' => Some (handler (Raises e w'))
  | Returns session w' =>
      handler <$> search_loop h session (search_params b_box start_date end_date collections)
                    fuel (initial_state url0) w'
  end.

Definition get_fname_from_url (h : Host) (sid file_url : json) (file_prefix file_suffix : string)
  : M string :=
  try_except is_Exception ("Error getting filename for " +:+ py_str h sid +:+ ": ")
    (let* parts := lift (splitext (os_path h) file_url) in
     let file_ext := snd parts in
     ret (file_prefix +:+ "_" +:+ py_str h sid +:+ "_" +:+ file_suffix +:+ file_ext)).

(** [in_url.startswith("/vsicurl/")] and the prefixing that follows. *)
Definition vsicurl (in_url : json) : Exn + string :=
  match in_url with
  | JStr s => inr (if String.prefix "/vsicurl/" s then s else "/vsicurl/" +:+ s)
  | _ => inl (AttributeError "object has no attribute 'startswith'")
  end.

(** [gdal.OpenEx(cog_url)], recorded in the trace. *)
Definition open_ex (h : Host) (cog_url : string) : M (option Dataset) :=
  fun w =>
    let out := gdal_OpenEx h w cog_url in
    let w' := with_net (EvOpen cog_url out) w in
    match out with inr d => Returns d w' | inl e => Raises e w' end.

(** [gdal.Translate(in_lyr, ds)]: on success the intermediate raster is on
    disk; a failure without exception leaves nothing. *)
Definition translate (h : Host) (in_lyr : string) (ds : Dataset) : M unit :=
  fun w =>
    match gdal_Translate h w in_lyr ds with
    | inl e => Raises e w
    | inr None => Returns tt w
    | inr (Some c) => Returns tt (with_fs <[in_lyr := c]> w)
    end.

(** [arcpy.management.Clip(in_raster, out_raster, in_template_dataset, ...)]:
    on success the output raster is on disk; a call that raises may have
    written a part of it before, or nothing. *)
Definition clip (h : Host) (in_raster out_raster : string) (fc : Polygon) : M unit :=
  fun w =>
    match arcpy_Clip h w in_raster out_raster fc with
    | inl (e, None) => Raises e w
    | inl (e, Some partial) => Raises e (with_fs <[out_raster := partial]> w)
    | inr c => Returns tt (with_fs <[out_raster := c]> w)
    end.

Definition download_img (h : Host) (sid in_url : json) (in_lyr : string)
    (in_clip_fc : Polygon) (out_file : string) : M unit :=
  try_except is_Exception ("Error downloading image for " +:+ py_str h sid +:+ ": ")
    (let* present := path_exists out_file in
     if present
     then add_message ("Image for " +:+ py_str h sid +:+ " already exists at " +:+ out_file)
     else if is_None in_url
     then add_message ("Warning: Image for " +:+ py_str h sid +:+ " is not available.")
     else
       ((fun w => Returns tt (with_env_extent "MINOF" w));;
        let* cog_url := lift (vsicurl in_url) in
        let* ds := open_ex h cog_url in
        match ds with
        | None => add_error ("Failed to open dataset for " +:+ py_str h sid) None
        | Some d =>
            (translate h in_lyr d;;
             clip h in_lyr out_file in_clip_fc;;
             add_message ("saved image for " +:+ py_str h sid +:+ " in " +:+ out_file))
        end)).

(** [open(out_file, "w")]: the file exists, empty, from here on.  The call
    is taken to succeed: the directory of the file is there (the tools
    create the output directory before the first download) and the file
    may be written. *)
Definition open_w (out_file : string) : M unit :=
  fun w => Returns tt (with_fs <[out_file := ""]> w).

(** [f.write(s)] on the file just opened, taken to succeed: [s] is a text
    the encoding of the file can hold. *)
Definition write (out_file s : string) : M unit :=
  fun w => Returns tt (with_fs <[out_file := default "" (fs w !! out_file) +:+ s]> w).

Definition download_mtd (h : Host) (session : Session) (sid in_url : json) (out_file : string)
  : M unit :=
  try_except is_Exception ("Error downloading metadata for " +:+ py_str h sid +:+ ": ")
    (let* present := path_exists out_file in
     if present
     then add_message ("metadata for " +:+ py_str h sid +:+ " exists in " +:+ out_file)
     else if is_None in_url
     then add_message ("WARNING metadata for " +:+ py_str h sid +:+ " is not available")
     else
       (open_w out_file;;
        let* response := http_get h session {| req_url := in_url; req_params := None |} in
        if status_code response =? 200
        then (write out_file (text response);;
              add_message ("saved metadata for " +:+ py_str h sid +:+ " in " +:+ out_file))
        else ret tt)).

(** The body of the [for item in ...] loop of [get_data], up to the second
    download. *)
Definition get_data_item (h : Host) (session : Session) (out_prefix out_dir temp_dir : string)
    (clip_extent : Polygon) (item : sc_info) : M unit :=
  let sid := scene_id item in
  let* vis_fname := get_fname_from_url h sid (vis_url item) out_prefix "TCI" in
  let* mtd_fname := get_fname_from_url h sid (mtd_url item) out_prefix "metadata" in
  let vrt_fname := py_str h sid +:+ "_TCI.vrt" in
  let vis_file := path_join h out_dir vis_fname in
  let mtd_file := path_join h out_dir mtd_fname in
  let vrt_lyr := path_join h temp_dir vrt_fname in
  let* sr := lift (SpatialReference h (epsg_code item)) in
  let* clip_extent_proj := lift (projectAs h clip_extent sr) in
  (download_img h sid (vis_url item) vrt_lyr clip_extent_proj vis_file;;
   download_mtd h session sid (mtd_url item) mtd_file).

Fixpoint get_data_loop (h : Host) (session : Session) (out_prefix out_dir temp_dir : string)
    (clip_extent : Polygon) (total_download : Z) (items : list sc_info) (count_download : Z)
  : M unit :=
  match items with
  | [] => ret tt
  | item :: rest =>
      (get_data_item h session out_prefix out_dir temp_dir clip_extent item;;
       add_message ("downloaded " +:+ pretty (count_download + 1) +:+ " of " +:+
                    pretty total_download +:+ " images");;
       get_data_loop h session out_prefix out_dir temp_dir clip_extent total_download
         rest (count_download + 1))
  end.

Definition get_data (h : Host) (scenes_dict : gmap string (list sc_info))
    (out_prefix out_dir temp_dir : string) (clip_extent : Polygon) : M unit :=
  try_except is_Exception "Error getting data: "
    (let* session := get_session in
     let count_download := 0 in
     let scenes := default [] (scenes_dict !! "scenes") in
     let total_download := Z.of_nat (length scenes) in
     get_data_loop h session out_prefix out_dir temp_dir clip_extent total_download
       scenes count_download).

(** The number of HTTP requests in a trace. *)
Fixpoint count_gets (tr : list NetEvent) : nat :=
  match tr with
  | [] => O
  | EvGet _ _ :: tr' => S (count_gets tr')
  | EvOpen _ _ :: tr' => count_gets tr'
  end.

(** ** A scripted host, for running the helpers on concrete inputs *)

Module Demo.

(** Exact printing of a float as mantissa and binary exponent. *)
Definition hex_str (f : float) : string :=
  match Prim2SF f with
  | S754_zero _ => "0"
  | S754_infinity s => if s then "-inf" else "inf"
  | S754_nan => "nan"
  | S754_finite s m e => (if s then "-" else "") +:+ pretty (Zpos m) +:+ "p" +:+ pretty e
  end.

Definition fmin (a b : float) : float := if PrimFloat.ltb b a then b else a.
Definition fmax (a b : float) : float := if PrimFloat.ltb a b then b else a.

Definition bounds (p : Polygon) : Extent :=
  match vertices p with
  | [] => {| XMin := 0; YMin := 0; XMax := 0; YMax := 0 |}
  | v :: vs =>
      foldl (fun e q => {| XMin := fmin (XMin e) (X q); YMin := fmin (YMin e) (Y q);
                           XMax := fmax (XMax e) (X q); YMax := fmax (YMax e) (Y q) |})
            {| XMin := X v; YMin := Y v; XMax := X v; YMax := Y v |} vs
  end.

(** The host answers the [k]-th GET with the [k]-th entry of [script], any
    later one with [fallback], and opens a raster as [opens] says. *)
Definition host_with (script : list (Exn + Response)) (fallback : Exn + Response)
    (opens : string → Exn + option Dataset) : Host :=
  {| os_path := posixpath;
     path_join := fun d f => d +:+ "/" +:+ f;
     float_str := hex_str;
     str_other := fun _ => "?";
     int_str := fun _ => inl (ValueError "invalid literal for int()");
     strftime := fun v _ => match v with
                            | JStr s => inr s
                            | _ => inl (AttributeError "object has no attribute 'strftime'")
                            end;
     session_get := fun _ w _ =>
       default fallback (script !! count_gets (net w));
     gdal_OpenEx := fun _ u => opens u;
     gdal_Translate := fun _ _ d => inr (Some ("vrt of " +:+ match d with Ds u => u end));
     arcpy_Clip := fun _ i _ _ => inr ("clip of " +:+ i);
     SpatialReference := fun v => match v with
                                  | JNum z => inr z
                                  | _ => inl (RuntimeError "ERROR 999999")
                                  end;
     projectAs := fun p sr => inr {| vertices := vertices p; factoryCode := sr |};
     extent := bounds |}.

(** Past the end of the script the connection is refused. *)
Definition host (script : list (Exn + Response)) (opens : string → Exn + option Dataset)
  : Host :=
  host_with script (inl (RequestException "connection refused")) opens.

Definition w0 : World := mkWorld ∅ [] [] "".

Definition feature (id : string) (vis mtd : json) : json :=
  JObj [("id", JStr id);
        ("bbox", JArr [JNum 14; JNum 47; JNum 15; JNum 48]);
        ("properties", JObj [("datetime", JStr "2024-05-01T10:00:00Z");
                             ("s2:product_uri", JStr (id +:+ ".SAFE"));
                             ("eo:cloud_cover", JNum 3);
                             ("proj:epsg", JNum 32633)]);
        ("assets", JObj [("thumbnail", JObj [("href", JStr "https://host/thumb.jpg")]);
                         ("visual", JObj [("href", vis)]);
                         ("granule_metadata", JObj [("href", mtd)])])].

Definition page (ret : Z) (next : option string) (features : list json) : Response :=
  {| status_code := 200;
     body_json := inr (JObj [("context", JObj [("matched", JNum 100); ("returned", JNum ret)]);
                             ("links", JArr (match next with
                                             | Some u => [JObj [("rel", JStr "next"); ("href", JStr u)]]
                                             | None => []
                                             end));
                             ("features", JArr features)]);
     text := "" |}.

Definition status (code : Z) : Exn + Response :=
  inr {| status_code := code; body_json := inl (RequestException "no JSON"); text := "" |}.

Definition item (id : string) (vis mtd : json) : sc_info :=
  {| scene_datetime := JStr "2024-05-01T10:00:00Z"; scene_id := JStr id;
     scene_uri := JStr (id +:+ ".SAFE"); ql_url := JStr "https://host/thumb.jpg";
     vis_url := vis; mtd_url := mtd; cloud_cover := JNum 3; epsg_code := JNum 32633;
     bbox := JArr [JNum 14; JNum 47; JNum 15; JNum 48] |}.

Definition numbered (from : nat) (n : nat) : list json :=
  map (fun i => feature ("S2_" +:+ pretty i) (JStr "https://host/TCI.tif") (JStr "https://host/MTD.xml"))
      (seq from n).

Definition records (from : nat) (n : nat) : list sc_info :=
  map (fun i => item ("S2_" +:+ pretty i) (JStr "https://host/TCI.tif") (JStr "https://host/MTD.xml"))
      (seq from n).

Definition opens_ok (u : string) : Exn + option Dataset := inr (Some (Ds u)).

Definition square : Polygon :=
  {| vertices := [ {| X := 10; Y := 20 |}; {| X := 10; Y := 21 |}; {| X := 11; Y := 21 |};
                   {| X := 11; Y := 20 |}; {| X := 10; Y := 20 |} ];
     factoryCode := 4326 |}.

Definition after {A} (r : Res A) : World :=
  match r with Returns _ w => w | Raises _ w => w end.

Definition xml : Exn + Response :=
  inr {| status_code := 200; body_json := inl (RequestException "no JSON"); text := "<xml/>" |}.

Definition scene_x : sc_info :=
  item "S2A_X" (JStr "https://host/a/TCI.tif") (JStr "https://host/a/MTD.xml").
Definition scene_y : sc_info :=
  item "S2B_Y" (JStr "https://host/b/TCI.tif") (JStr "https://host/b/MTD.xml").

Definition scenes (l : list sc_info) : gmap string (list sc_info) := <["scenes" := l]> ∅.

End Demo.

(** * Properties *)

(** ** Strings and [os.path.splitext] *)

Section StringFacts.

Lemma app_cons a (s t : string) : String a s +:+ t = String a (s +:+ t).
Proof. reflexivity. Qed.

Lemma app_nil_r_s (a : string) : a +:+ "" = a.
Proof. induction a as [|x a IH]; [reflexivity|]. rewrite app_cons. by f_equal. Qed.





Lemma substring_app_l (a b : string) : String.substring 0 (String.length a) (a +:+ b) = a.
Proof.
  induction a as [|x a IH]; [by destruct b|]. rewrite app_cons. simpl. by f_equal.
Qed.


Lemma rfind_from_shift c s i acc :
  rfind_from c s i acc = (if rfind c s =? -1 then acc else i + rfind c s)
  ∧ -1 ≤ rfind c s < Z.of_nat (String.length s).
Proof.
  unfold rfind. revert i acc. induction s as [|a s IH]; intros i acc.
  - simpl. split; [reflexivity | lia].
  - cbn [rfind_from String.length].
    destruct (IH (i + 1) (if Ascii.eqb a c then i else acc)) as [-> Hb].
    destruct (IH (0 + 1) (if Ascii.eqb a c then 0 else -1)) as [-> _].
    destruct (Z.eqb_spec (rfind_from c s 0 (-1)) (-1)) as [E|E].
    + destruct (Ascii.eqb a c); simpl; split; try reflexivity; lia.
    + destruct (Z.eqb_spec (0 + 1 + rfind_from c s 0 (-1)) (-1)); split; lia.
Qed.

Lemma rfind_bounds c s : -1 ≤ rfind c s < Z.of_nat (String.length s).
Proof. apply (rfind_from_shift c s 0 0). Qed.

Lemma rfind_cons c a s :
  rfind c (String a s) =
  if rfind c s =? -1 then (if Ascii.eqb a c then 0 else -1) else 1 + rfind c s.
Proof.
  unfold rfind at 1. cbn [rfind_from].
  by destruct (rfind_from_shift c s (0 + 1) (if Ascii.eqb a c then 0 else -1)) as [-> _].
Qed.

Lemma rfind_app c (a b : string) :
  rfind c (a +:+ b) =
  if rfind c b =? -1 then rfind c a else Z.of_nat (String.length a) + rfind c b.
Proof.
  induction a as [|x a IH].
  - change ("" +:+ b) with b. pose proof (rfind_bounds c b).
    destruct (Z.eqb_spec (rfind c b) (-1)) as [->|]; [reflexivity|]. simpl. lia.
  - rewrite app_cons, !rfind_cons, IH. pose proof (rfind_bounds c a).
    pose proof (rfind_bounds c b). cbn [String.length].
    destruct (Z.eqb_spec (rfind c b) (-1)); [reflexivity|].
    destruct (Z.eqb_spec (Z.of_nat (String.length a) + rfind c b) (-1)); lia.
Qed.



End StringFacts.

(** The index of the last separator, as [_splitext] computes it. *)
Definition sep_index (os : OsPath) (p : string) : Z :=
  match altsep os with
  | Some a => Z.max (rfind (sep os) p) (rfind a p)
  | None => rfind (sep os) p
  end.

(** [c] is a separator of the platform. *)
Definition is_sep (os : OsPath) (c : ascii) : Prop := c = sep os ∨ altsep os = Some c.

Lemma sep_index_ge os c p : is_sep os c → rfind c p ≤ sep_index os p.
Proof. unfold sep_index. intros [->|E]; [|rewrite E]; destruct (altsep os); lia. Qed.


Lemma is_sep_not_dot os c : is_sep os c → c ≠ extsep.
Proof. destruct os; intros [->|E]; simplify_eq/=; done. Qed.


(** ** File names *)


(** ** The buffered extent *)

(** C6. For a polygon already in WGS84 the bounding box string is
    "xmin,ymin,xmax,ymax" with the extent of the polygon moved outwards by
    [buffer / 100000] on each side, and the polygon is the closed ring
    (xmin,ymin), (xmin,ymax), (xmax,ymax), (xmax,ymin), (xmin,ymin) in
    WGS84; nothing is logged.  The arithmetic is that of binary64 floats,
    as in the source. *)
Theorem buffer_extent_wgs84 (h : Host) (extent_poly : Polygon) (buffer : float) (w : World) :
  factoryCode extent_poly = 4326 →
  let e := extent h extent_poly in
  let buffer_dd := (buffer / 100000)%float in
  let x_min := (XMin e - buffer_dd)%float in
  let y_min := (YMin e - buffer_dd)%float in
  let x_max := (XMax e + buffer_dd)%float in
  let y_max := (YMax e + buffer_dd)%float in
  buffer_extent h extent_poly buffer w =
  Returns (float_str h x_min +:+ "," +:+ float_str h y_min +:+ "," +:+
           float_str h x_max +:+ "," +:+ float_str h y_max,
           {| vertices := [ {| X := x_min; Y := y_min |}; {| X := x_min; Y := y_max |};
                            {| X := x_max; Y := y_max |}; {| X := x_max; Y := y_min |};
                            {| X := x_min; Y := y_min |} ];
              factoryCode := 4326 |}) w.
Proof.
  intros Hsr. unfold buffer_extent, try_except, bind.
  rewrite bool_decide_false by (by intros []). reflexivity.
Qed.

Lemma buffer_extent_wgs84_witness :
  factoryCode Demo.square = 4326
  ∧ ∃ bb ring, buffer_extent (Demo.host [] Demo.opens_ok) Demo.square 250 Demo.w0
               = Returns (bb, {| vertices := ring; factoryCode := 4326 |}) Demo.w0
               ∧ length ring = 5%nat ∧ head ring = last ring.
Proof.
  split; [reflexivity|].
  eexists _, _. split; [apply (buffer_extent_wgs84 _ Demo.square 250 Demo.w0); reflexivity|].
  split; reflexivity.
Defined.

(** A polygon in another reference is reprojected first; a refusal of the
    geometry engine is logged and raised again. *)
Lemma buffer_extent_reproject_fails (h : Host) (extent_poly : Polygon) (buffer : float)
    (w : World) (e : Exn) :
  factoryCode extent_poly ≠ 4326 →
  projectAs h extent_poly 4326 = inl e →
  buffer_extent h extent_poly buffer w
  = Raises e (with_log (AddError "Error creating buffered extent: " (Some e)) w).
Proof.
  intros Hsr He. unfold buffer_extent, try_except, bind, lift.
  rewrite bool_decide_true by done. by rewrite He.
Qed.

(** ** Skipping what is already on disk *)

Lemma download_img_exists (h : Host) (sid in_url : json) (in_lyr : string) (fc : Polygon)
    (out_file : string) (w : World) :
  is_Some (fs w !! out_file) →
  download_img h sid in_url in_lyr fc out_file w
  = Returns tt (with_log (AddMessage ("Image for " +:+ py_str h sid +:+ " already exists at "
                                      +:+ out_file)) w).
Proof.
  intros Hf. unfold download_img, try_except, bind, path_exists.
  by rewrite bool_decide_true.
Qed.

Lemma download_mtd_exists (h : Host) (session : Session) (sid in_url : json)
    (out_file : string) (w : World) :
  is_Some (fs w !! out_file) →
  download_mtd h session sid in_url out_file w
  = Returns tt (with_log (AddMessage ("metadata for " +:+ py_str h sid +:+ " exists in "
                                      +:+ out_file)) w).
Proof.
  intros Hf. unfold download_mtd, try_except, bind, path_exists.
  by rewrite bool_decide_true.
Qed.

(** The file name does not depend on the world. *)
Lemma get_fname_from_url_pure (h : Host) (sid url : json) (pre suf : string) (w : World) :
  get_fname_from_url h sid url pre suf w =
  match splitext (os_path h) url with
  | inr parts => Returns (pre +:+ "_" +:+ py_str h sid +:+ "_" +:+ suf +:+ snd parts) w
  | inl e => Raises e (with_log (AddError ("Error getting filename for " +:+ py_str h sid +:+ ": ")
                                          (Some e)) w)
  end.
Proof.
  unfold get_fname_from_url, try_except, bind, lift. by destruct (splitext _ _).
Qed.

Lemma get_fname_from_url_returns (h : Host) (sid url : json) (pre suf f : string) (w w' : World) :
  get_fname_from_url h sid url pre suf w = Returns f w' →
  ∀ w2, get_fname_from_url h sid url pre suf w2 = Returns f w2.
Proof.
  rewrite get_fname_from_url_pure. intros H w2. rewrite get_fname_from_url_pure.
  destruct (splitext _ _); by simplify_eq.
Qed.

(** What a scene needs before anything is downloaded: two file names, the
    spatial reference of the scene and the reprojected clip polygon. *)
Definition prepared (h : Host) (out_prefix : string) (clip_extent : Polygon) (item : sc_info)
    (vis_fname mtd_fname : string) (clip_extent_proj : Polygon) : Prop :=
  (∀ w, get_fname_from_url h (scene_id item) (vis_url item) out_prefix "TCI" w
        = Returns vis_fname w)
  ∧ (∀ w, get_fname_from_url h (scene_id item) (mtd_url item) out_prefix "metadata" w
          = Returns mtd_fname w)
  ∧ ∃ sr, SpatialReference h (epsg_code item) = inr sr
          ∧ projectAs h clip_extent sr = inr clip_extent_proj.

Lemma get_data_item_prepared (h : Host) (session : Session) (out_prefix out_dir temp_dir : string)
    (clip_extent : Polygon) (item : sc_info) (vis_fname mtd_fname : string)
    (clip_extent_proj : Polygon) (w : World) :
  prepared h out_prefix clip_extent item vis_fname mtd_fname clip_extent_proj →
  get_data_item h session out_prefix out_dir temp_dir clip_extent item w =
  (download_img h (scene_id item) (vis_url item)
     (path_join h temp_dir (py_str h (scene_id item) +:+ "_TCI.vrt"))
     clip_extent_proj (path_join h out_dir vis_fname);;
   download_mtd h session (scene_id item) (mtd_url item) (path_join h out_dir mtd_fname)) w.
Proof.
  intros (Hv & Hm & sr & Hsr & Hp). unfold get_data_item.
  unfold bind at 1. rewrite Hv. unfold bind at 1. rewrite Hm.
  unfold bind at 1, lift at 1. rewrite Hsr. unfold bind at 1, lift at 1. by rewrite Hp.
Qed.

(** A scene that got through was prepared. *)
Lemma get_data_item_returns (h : Host) (session : Session) (out_prefix out_dir temp_dir : string)
    (clip_extent : Polygon) (item : sc_info) (w w' : World) :
  get_data_item h session out_prefix out_dir temp_dir clip_extent item w = Returns tt w' →
  ∃ vis_fname mtd_fname clip_extent_proj,
    prepared h out_prefix clip_extent item vis_fname mtd_fname clip_extent_proj.
Proof.
  unfold get_data_item. unfold bind at 1.
  destruct (get_fname_from_url h _ (vis_url item) _ _ w) as [f1 w1|] eqn:E1; [|done].
  unfold bind at 1.
  destruct (get_fname_from_url h _ (mtd_url item) _ _ w1) as [f2 w2|] eqn:E2; [|done].
  unfold bind at 1, lift at 1.
  destruct (SpatialReference h (epsg_code item)) as [|sr] eqn:E3; [done|].
  unfold bind at 1, lift at 1.
  destruct (projectAs h clip_extent sr) as [|cp] eqn:E4; [done|]. intros _.
  exists f1, f2, cp. split_and!; eauto using get_fname_from_url_returns.
Qed.

Lemma get_data_loop_returns (h : Host) (session : Session) (out_prefix out_dir temp_dir : string)
    (clip_extent : Polygon) (total : Z) (items : list sc_info) (count : Z) (w w' : World) :
  get_data_loop h session out_prefix out_dir temp_dir clip_extent total items count w
  = Returns tt w' →
  ∀ item, item ∈ items →
  ∃ vis_fname mtd_fname clip_extent_proj,
    prepared h out_prefix clip_extent item vis_fname mtd_fname clip_extent_proj.
Proof.
  revert count w. induction items as [|it items IH]; intros count w Hrun item Hin.
  { by apply elem_of_nil in Hin. }
  cbn [get_data_loop] in Hrun. unfold bind at 1 in Hrun.
  destruct (get_data_item _ _ _ _ _ _ it w) as [[] w1|] eqn:E1; [|done].
  apply elem_of_cons in Hin as [->|Hin]; [by eapply get_data_item_returns|].
  unfold bind at 1, add_message at 1 in Hrun. by eapply IH.
Qed.

(** With every target on disk the loop touches neither network nor disk. *)
Lemma get_data_loop_skips (h : Host) (session : Session) (out_prefix out_dir temp_dir : string)
    (clip_extent : Polygon) (total : Z) (items : list sc_info) (count : Z) (w : World) :
  (∀ item, item ∈ items →
     ∃ vis_fname mtd_fname clip_extent_proj,
       prepared h out_prefix clip_extent item vis_fname mtd_fname clip_extent_proj
       ∧ is_Some (fs w !! path_join h out_dir vis_fname)
       ∧ is_Some (fs w !! path_join h out_dir mtd_fname)) →
  ∃ w', get_data_loop h session out_prefix out_dir temp_dir clip_extent total items count w
        = Returns tt w'
        ∧ net w' = net w ∧ fs w' = fs w.
Proof.
  revert count w. induction items as [|it items IH]; intros count w Hall.
  { by exists w. }
  destruct (Hall it) as (f1 & f2 & cp & Hprep & Hf1 & Hf2); [by left|].
  cbn [get_data_loop]. unfold bind at 1.
  rewrite (get_data_item_prepared _ _ _ _ _ _ _ _ _ _ _ Hprep).
  unfold bind at 1. rewrite download_img_exists by done.
  rewrite download_mtd_exists by done.
  unfold bind at 1, add_message at 1.
  edestruct (IH (count + 1)) as (w' & -> & Hn & Hf).
  2: { exists w'. by rewrite Hn, Hf. }
  intros item Hin. destruct (Hall item) as (g1 & g2 & cq & ? & ? & ?); [by right|].
  by exists g1, g2, cq.
Qed.

(** The session every helper works with. *)
Definition the_session : Session :=
  {| retry_total := 5; backoff_factor := 0x1.999999999999ap-4%float;
     status_forcelist := [500; 502; 503; 504]; mounted := "https://" |}.

Lemma get_session_eq (w : World) : get_session w = Returns the_session w.
Proof. reflexivity. Qed.

Lemma get_data_eq (h : Host) (scenes_dict : gmap string (list sc_info))
    (out_prefix out_dir temp_dir : string) (clip_extent : Polygon) (w : World) :
  get_data h scenes_dict out_prefix out_dir temp_dir clip_extent w =
  handle is_Exception "Error getting data: "
    (get_data_loop h the_session out_prefix out_dir temp_dir clip_extent
       (Z.of_nat (length (default [] (scenes_dict !! "scenes"))))
       (default [] (scenes_dict !! "scenes")) 0 w).
Proof. reflexivity. Qed.

(** C3. A download step whose output file is on disk only reports so; and
    a second [get_data] over the same scenes, prefix and directory, started
    where a first one returned with every target file on disk, returns as
    well without one raster open or GET and leaves the disk as it is. *)
Theorem get_data_idempotent (h : Host) (scenes_dict : gmap string (list sc_info))
    (out_prefix out_dir temp_dir : string) (clip_extent : Polygon) (w0 w1 : World) :
  get_data h scenes_dict out_prefix out_dir temp_dir clip_extent w0 = Returns tt w1 →
  (∀ item f, item ∈ default [] (scenes_dict !! "scenes") →
     get_fname_from_url h (scene_id item) (vis_url item) out_prefix "TCI" w1 = Returns f w1
     ∨ get_fname_from_url h (scene_id item) (mtd_url item) out_prefix "metadata" w1
       = Returns f w1 →
     is_Some (fs w1 !! path_join h out_dir f)) →
  (∀ sid in_url in_lyr fc out_file w,
     is_Some (fs w !! out_file) →
     ∃ m, download_img h sid in_url in_lyr fc out_file w = Returns tt (with_log (AddMessage m) w))
  ∧ (∀ session sid in_url out_file w,
       is_Some (fs w !! out_file) →
       ∃ m, download_mtd h session sid in_url out_file w
            = Returns tt (with_log (AddMessage m) w))
  ∧ ∃ w2, get_data h scenes_dict out_prefix out_dir temp_dir clip_extent w1 = Returns tt w2
          ∧ net w2 = net w1 ∧ fs w2 = fs w1.
Proof.
  intros Hfirst Hfiles. split_and!.
  - intros. eexists. by apply download_img_exists.
  - intros. eexists. by apply download_mtd_exists.
  - rewrite get_data_eq in Hfirst |- *.
    destruct (get_data_loop _ _ _ _ _ _ _ _ _ w0) as [[] w1'|] eqn:E; [|done].
    cbn [handle] in Hfirst. injection Hfirst as ->.
    pose proof (get_data_loop_returns _ _ _ _ _ _ _ _ _ _ _ E) as Hprep.
    edestruct get_data_loop_skips as (w2 & -> & Hn & Hf).
    2: { by exists w2. }
    intros item Hin. destruct (Hprep item Hin) as (f1 & f2 & cp & Hp).
    exists f1, f2, cp. destruct Hp as (Hv & Hm & Hrest).
    split_and!; [done| |]; eapply Hfiles; eauto.
Qed.

Lemma get_data_idempotent_witness :
  let h := Demo.host [Demo.xml] Demo.opens_ok in
  let d := Demo.scenes [Demo.scene_x] in
  let w1 := Demo.after (get_data h d "AOI1" "out" "out/temp" Demo.square Demo.w0) in
  get_data h d "AOI1" "out" "out/temp" Demo.square Demo.w0 = Returns tt w1
  ∧ fs w1 !! "out/AOI1_S2A_X_TCI.tif" = Some "clip of out/temp/S2A_X_TCI.vrt"
  ∧ fs w1 !! "out/AOI1_S2A_X_metadata.xml" = Some "<xml/>"
  ∧ ∃ w2, get_data h d "AOI1" "out" "out/temp" Demo.square w1 = Returns tt w2
          ∧ net w2 = net w1 ∧ fs w2 = fs w1.
Proof.
  intros h d w1.
  split; [vm_compute; reflexivity|].
  split; [vm_compute; reflexivity|].
  split; [vm_compute; reflexivity|].
  apply (get_data_idempotent h d "AOI1" "out" "out/temp" Demo.square Demo.w0 w1).
  - vm_compute; reflexivity.
  - intros item f Hin Hf.
    assert (item = Demo.scene_x) as -> by (by apply list_elem_of_singleton in Hin).
    destruct Hf as [Hf|Hf]; vm_compute in Hf; injection Hf as <-; vm_compute; eauto.
Defined.

(** ** Metadata answered with an error status *)

(** C9. When the metadata GET is answered with a status other than 200,
    [download_mtd] has already created the output file: it returns without
    error and without a message, the file exists and is empty, and every
    later call for the same output file only reports that the metadata
    exists and issues no GET. *)
Theorem download_mtd_non_200 (h : Host) (session : Session) (sid in_url : json)
    (out_file : string) (w : World) (response : Response) :
  fs w !! out_file = None →
  is_None in_url = false →
  session_get h session (with_fs <[out_file := ""]> w) {| req_url := in_url; req_params := None |}
  = inr response →
  status_code response ≠ 200 →
  ∃ w1, download_mtd h session sid in_url out_file w = Returns tt w1
        ∧ fs w1 = <[out_file := ""]> (fs w)
        ∧ fs w1 !! out_file = Some ""
        ∧ log w1 = log w
        ∧ net w1 = net w ++ [EvGet {| req_url := in_url; req_params := None |} (inr response)]
        ∧ ∀ h' session' in_url',
            ∃ w2, download_mtd h' session' sid in_url' out_file w1 = Returns tt w2
                  ∧ net w2 = net w1 ∧ fs w2 = fs w1
                  ∧ log w2 = log w1 ++ [AddMessage ("metadata for " +:+ py_str h' sid +:+
                                                    " exists in " +:+ out_file)].
Proof.
  intros Hnew Hurl Hget Hstatus.
  unfold download_mtd at 1, try_except, bind, path_exists.
  rewrite bool_decide_false by (rewrite Hnew; by intros [? ?]).
  rewrite Hurl. unfold open_w, http_get. cbn beta.
  rewrite Hget. apply Z.eqb_neq in Hstatus. rewrite Hstatus.
  eexists. split; [reflexivity|]. cbn.
  split_and!; [done|by rewrite lookup_insert_eq|done|done|].
  intros h' session' in_url'. eexists. rewrite download_mtd_exists; [done|].
  cbn. by rewrite lookup_insert_eq.
Qed.

Lemma download_mtd_non_200_witness :
  let h := Demo.host [Demo.status 404] Demo.opens_ok in
  ∃ w1, download_mtd h the_session (JStr "S2A_X") (JStr "https://host/a/MTD.xml")
          "out/AOI1_S2A_X_metadata.xml" Demo.w0 = Returns tt w1
        ∧ fs w1 !! "out/AOI1_S2A_X_metadata.xml" = Some ""
        ∧ log w1 = []
        ∧ ∃ w2, download_mtd h the_session (JStr "S2A_X") (JStr "https://host/a/MTD.xml")
                  "out/AOI1_S2A_X_metadata.xml" w1 = Returns tt w2
                ∧ net w2 = net w1.
Proof.
  intros h.
  destruct (download_mtd_non_200 h the_session (JStr "S2A_X") (JStr "https://host/a/MTD.xml")
              "out/AOI1_S2A_X_metadata.xml" Demo.w0
              {| status_code := 404; body_json := inl (RequestException "no JSON"); text := "" |})
    as (w1 & Hrun & _ & Hfile & Hlog & _ & Hnext);
    [reflexivity | reflexivity | reflexivity | (simpl; lia) |].
  exists w1. split_and!; [done..|].
  destruct (Hnext h the_session (JStr "https://host/a/MTD.xml")) as (w2 & ? & ? & _).
  by exists w2.
Defined.

(** ** A scene without visual asset *)

Lemma handle_raises {A} (covers : Exn → bool) (msg : string) (r : Res A) (e : Exn) (w' : World) :
  handle covers msg r = Raises e w' →
  ∃ w'', r = Raises e w''
         ∧ w' = if covers e then with_log (AddError msg (Some e)) w'' else w''.
Proof. destruct r as [a w1|e1 w1]; [done|]. cbn. destruct (covers e1) eqn:C; intros [= <- <-]; exists w1; by rewrite C. Qed.

Lemma get_data_loop_raises_first (h : Host) (session : Session)
    (out_prefix out_dir temp_dir : string) (clip_extent : Polygon) (total : Z)
    (item : sc_info) (rest : list sc_info) (count : Z) (w w' : World) (e : Exn) :
  get_data_item h session out_prefix out_dir temp_dir clip_extent item w = Raises e w' →
  get_data_loop h session out_prefix out_dir temp_dir clip_extent total (item :: rest) count w
  = Raises e w'.
Proof. intros H. cbn [get_data_loop]. unfold bind at 1. by rewrite H. Qed.

(** C2, on the code.  The visual URL of the first scene is null ([absent =
    false]) or was absent from the feature, so that [search_stac] stored
    [{}] ([absent = true]).  [download_img] called by itself with a null URL
    only warns, as the claim says; but [get_data] never gets that far:
    [get_fname_from_url] hands the URL to [os.path.splitext], which raises
    TypeError, and the exception travels up through [get_data].  No file is
    created, no metadata is fetched, and the scenes that follow are not
    visited. *)
Theorem get_data_missing_visual_raises (h : Host) (absent : bool)
    (dt sid uri ql mtd cc epsg bb : json) (rest : list sc_info)
    (out_prefix out_dir temp_dir : string) (clip_extent : Polygon) (w : World) :
  let missing := if absent then empty_dict else JNull in
  let item := {| scene_datetime := dt; scene_id := sid; scene_uri := uri; ql_url := ql;
                 vis_url := missing; mtd_url := mtd; cloud_cover := cc; epsg_code := epsg;
                 bbox := bb |} in
  let e := TypeError "expected str, bytes or os.PathLike object" in
  get_data h (<["scenes" := item :: rest]> ∅) out_prefix out_dir temp_dir clip_extent w
  = Raises e
      (with_log (AddError "Error getting data: " (Some e))
         (with_log (AddError ("Error getting filename for " +:+ py_str h sid +:+ ": ") (Some e)) w))
  ∧ (∀ in_lyr fc out_file,
       fs w !! out_file = None →
       download_img h sid JNull in_lyr fc out_file w
       = Returns tt (with_log (AddMessage ("Warning: Image for " +:+ py_str h sid +:+
                                           " is not available.")) w)).
Proof.
  intros missing item e. split.
  - rewrite get_data_eq, lookup_insert_eq. cbn [from_option]. unfold id.
    erewrite get_data_loop_raises_first; [reflexivity|].
    unfold get_data_item. unfold bind at 1. rewrite get_fname_from_url_pure.
    by destruct absent.
  - intros in_lyr fc out_file Hnew. unfold download_img, try_except, bind, path_exists.
    rewrite bool_decide_false by (rewrite Hnew; by intros [? ?]). reflexivity.
Qed.

(** The same on a concrete scene, with the metadata URL present. *)
Example null_visual_scene :
  let h := Demo.host [Demo.xml] Demo.opens_ok in
  let d := Demo.scenes [Demo.item "S2A_X" JNull (JStr "https://host/a/MTD.xml")] in
  let e := TypeError "expected str, bytes or os.PathLike object" in
  get_data h d "AOI1" "out" "out/temp" Demo.square Demo.w0
  = Raises e {| fs := ∅;
                log := [AddError "Error getting filename for S2A_X: " (Some e);
                        AddError "Error getting data: " (Some e)];
                net := [];
                env_extent := "" |}.
Proof. vm_compute. reflexivity. Qed.

(** ** Failures while the scenes are retrieved *)

(** A host none of whose calls raises: a raster that cannot be opened
    comes back as no dataset, an HTTP failure as a status. *)
Definition never_raises (h : Host) : Prop :=
  (∀ w u, ∃ d, gdal_OpenEx h w u = inr d)
  ∧ (∀ w l d, ∃ r, gdal_Translate h w l d = inr r)
  ∧ (∀ w i o p, ∃ c, arcpy_Clip h w i o p = inr c)
  ∧ (∀ s w r, ∃ resp, session_get h s w r = inr resp).

(** The message of [download_img] for a raster that did not open. *)
Definition open_failure (h : Host) (sid : json) : LogEntry :=
  AddError ("Failed to open dataset for " +:+ py_str h sid) None.

Definition progress (k total : Z) : LogEntry :=
  AddMessage ("downloaded " +:+ pretty k +:+ " of " +:+ pretty total +:+ " images").

Lemma download_img_soft (h : Host) (sid : json) (u in_lyr : string) (fc : Polygon)
    (out_file : string) (w : World) :
  never_raises h →
  ∃ w1 l, download_img h sid (JStr u) in_lyr fc out_file w = Returns tt w1
          ∧ log w1 = log w ++ l
          ∧ ∀ c, EvOpen c (inr None) ∈ net w1 →
                 EvOpen c (inr None) ∈ net w ∨ open_failure h sid ∈ l.
Proof.
  intros (Hopen & Htr & Hclip & _).
  unfold download_img, try_except, bind, path_exists. case_bool_decide.
  { eexists _, [_]. cbn. split_and!; [done..|]. by left. }
  cbn [is_None lift vsicurl]. unfold open_ex.
  set (cog := if String.prefix _ _ then _ else _).
  destruct (Hopen (with_env_extent "MINOF" w) cog) as [d ->].
  destruct d as [d|].
  - unfold translate. destruct (Htr (with_net (EvOpen cog (inr (Some d))) (with_env_extent "MINOF" w)) in_lyr d) as [r ->].
    destruct r as [c|]; unfold clip.
    + match goal with |- context [arcpy_Clip h ?w' ?i ?o ?p] =>
        destruct (Hclip w' i o p) as [c' ->] end.
      eexists _, [_]. cbn. split_and!; [done..|].
      intros c0 [?|Hin%list_elem_of_singleton]%elem_of_app; [by left|done].
    + match goal with |- context [arcpy_Clip h ?w' ?i ?o ?p] =>
        destruct (Hclip w' i o p) as [c' ->] end.
      eexists _, [_]. cbn. split_and!; [done..|].
      intros c0 [?|Hin%list_elem_of_singleton]%elem_of_app; [by left|done].
  - eexists _, [_]. cbn. split_and!; [done..|].
    intros c0 _. right. by apply list_elem_of_singleton.
Qed.

Lemma download_mtd_soft (h : Host) (session : Session) (sid : json) (u out_file : string)
    (w : World) :
  never_raises h →
  ∃ w1 l, download_mtd h session sid (JStr u) out_file w = Returns tt w1
          ∧ log w1 = log w ++ l
          ∧ ∀ c, EvOpen c (inr None) ∈ net w1 → EvOpen c (inr None) ∈ net w.
Proof.
  intros (_ & _ & _ & Hget).
  unfold download_mtd, try_except, bind, path_exists. case_bool_decide.
  { by eexists _, [_]. }
  cbn [is_None]. unfold http_get, open_w.
  match goal with |- context [session_get h ?s ?w' ?r] =>
    destruct (Hget s w' r) as [resp ->] end.
  destruct (status_code resp =? 200).
  - eexists _, [_]. cbn. split_and!; [done..|].
    intros c0 [?|Hin%list_elem_of_singleton]%elem_of_app; done.
  - eexists _, []. cbn. rewrite app_nil_r. split_and!; [done..|].
    intros c0 [?|Hin%list_elem_of_singleton]%elem_of_app; done.
Qed.

Lemma prepared_strings (h : Host) (out_prefix : string) (clip_extent : Polygon) (item : sc_info)
    (f1 f2 : string) (cp : Polygon) :
  prepared h out_prefix clip_extent item f1 f2 cp →
  ∃ u m, vis_url item = JStr u ∧ mtd_url item = JStr m.
Proof.
  intros (Hv & Hm & _).
  specialize (Hv (mkWorld ∅ [] [] "")). specialize (Hm (mkWorld ∅ [] [] "")).
  rewrite get_fname_from_url_pure in Hv, Hm.
  destruct (vis_url item), (mtd_url item); try done. eauto.
Qed.

Lemma get_data_item_soft (h : Host) (session : Session) (out_prefix out_dir temp_dir : string)
    (clip_extent : Polygon) (item : sc_info) (f1 f2 : string) (cp : Polygon) (w : World) :
  prepared h out_prefix clip_extent item f1 f2 cp →
  never_raises h →
  ∃ w1 l, get_data_item h session out_prefix out_dir temp_dir clip_extent item w = Returns tt w1
          ∧ log w1 = log w ++ l
          ∧ ∀ c, EvOpen c (inr None) ∈ net w1 →
                 EvOpen c (inr None) ∈ net w ∨ open_failure h (scene_id item) ∈ l.
Proof.
  intros Hprep Hsoft.
  rewrite (get_data_item_prepared _ _ _ _ _ _ _ _ _ _ _ Hprep).
  destruct (prepared_strings _ _ _ _ _ _ _ Hprep) as (u & m & -> & ->).
  unfold bind.
  edestruct (download_img_soft h (scene_id item) u) as (w1 & l1 & -> & Hl1 & Hn1); [done|].
  edestruct (download_mtd_soft h session (scene_id item) m) as (w2 & l2 & -> & Hl2 & Hn2); [done|].
  exists w2, (l1 ++ l2). split_and!; [done|by rewrite Hl2, Hl1, app_assoc|].
  intros c Hc. destruct (Hn1 c (Hn2 c Hc)) as [?|?]; [by left|right].
  apply elem_of_app. by left.
Qed.

Lemma get_data_loop_soft (h : Host) (session : Session) (out_prefix out_dir temp_dir : string)
    (clip_extent : Polygon) (total : Z) (items : list sc_info) (count : Z) (w : World) :
  (∀ item, item ∈ items → ∃ f1 f2 cp, prepared h out_prefix clip_extent item f1 f2 cp) →
  never_raises h →
  ∃ w' l, get_data_loop h session out_prefix out_dir temp_dir clip_extent total items count w
          = Returns tt w'
          ∧ log w' = log w ++ l
          ∧ (∀ k, count < k ≤ count + Z.of_nat (length items) → progress k total ∈ l)
          ∧ ∀ c, EvOpen c (inr None) ∈ net w' →
                 EvOpen c (inr None) ∈ net w
                 ∨ ∃ item, item ∈ items ∧ open_failure h (scene_id item) ∈ l.
Proof.
  intros Hprep Hsoft. revert count w.
  induction items as [|it items IH]; intros count w.
  { exists w, []. cbn. rewrite app_nil_r. split_and!; [done..|lia|by left]. }
  destruct (Hprep it) as (f1 & f2 & cp & Hp); [by left|].
  cbn [get_data_loop]. unfold bind at 1.
  destruct (get_data_item_soft h session out_prefix out_dir temp_dir clip_extent it f1 f2 cp w)
    as (w1 & l1 & -> & Hl1 & Hn1); [done..|].
  unfold bind at 1, add_message at 1.
  destruct (IH (λ item Hin, Hprep item (list_elem_of_further _ _ _ Hin)) (count + 1)
              (with_log (progress (count + 1) total) w1)) as (w' & l' & Hrun & Hl' & Hk & Hn').
  exists w', (l1 ++ [progress (count + 1) total] ++ l').
  split_and!.
  - exact Hrun.
  - rewrite Hl'. cbn. rewrite Hl1. by rewrite <- !app_assoc.
  - intros k Hk'. cbn [length] in Hk'. rewrite !elem_of_app, list_elem_of_singleton.
    destruct (decide (k = count + 1)) as [->|]; [by right; left|].
    right; right. apply Hk. lia.
  - intros c Hc. destruct (Hn' c Hc) as [Hc'|(item & Hin & Hlog)].
    + destruct (Hn1 c Hc') as [?|?]; [by left|].
      right. exists it. split; [by left|]. rewrite elem_of_app. by left.
    + right. exists item. split; [by right|]. rewrite !elem_of_app. by right; right.
Qed.

(** An exception in one scene leaves the loop at once. *)
Lemma get_data_loop_abort (h : Host) (session : Session) (out_prefix out_dir temp_dir : string)
    (clip_extent : Polygon) (total : Z) (pre : list sc_info) (item : sc_info)
    (post : list sc_info) (count : Z) (w w1 w2 : World) (e : Exn) :
  get_data_loop h session out_prefix out_dir temp_dir clip_extent total pre count w
  = Returns tt w1 →
  get_data_item h session out_prefix out_dir temp_dir clip_extent item w1 = Raises e w2 →
  get_data_loop h session out_prefix out_dir temp_dir clip_extent total
    (pre ++ item :: post) count w = Raises e w2.
Proof.
  revert count w. induction pre as [|it pre IH]; intros count w Hpre Hitem.
  { cbn in Hpre. injection Hpre as ->. by apply get_data_loop_raises_first. }
  cbn [get_data_loop app] in Hpre |- *. unfold bind at 1 in Hpre. unfold bind at 1.
  destruct (get_data_item _ _ _ _ _ _ it w) as [[] w'|]; [|done].
  unfold bind at 1, add_message at 1 in Hpre. unfold bind at 1, add_message at 1.
  by apply IH.
Qed.

Lemma download_img_open_none (h : Host) (sid : json) (u in_lyr : string) (fc : Polygon)
    (out_file cog_url : string) (w : World) :
  fs w !! out_file = None →
  vsicurl (JStr u) = inr cog_url →
  gdal_OpenEx h (with_env_extent "MINOF" w) cog_url = inr None →
  download_img h sid (JStr u) in_lyr fc out_file w
  = Returns tt (with_log (open_failure h sid)
                  (with_net (EvOpen cog_url (inr None)) (with_env_extent "MINOF" w))).
Proof.
  intros Hnew Hcog Hopen. unfold download_img, try_except, bind, path_exists.
  rewrite bool_decide_false by (rewrite Hnew; by intros [? ?]).
  cbn [is_None]. rewrite Hcog. cbn [lift]. unfold open_ex. by rewrite Hopen.
Qed.

(** C1, amended.  A raster that does not open ([gdal.OpenEx] gives no
    dataset) is logged through AddError and its image skipped; when, beyond
    that, no call of a collaborator raises (an HTTP failure shows as a
    status other than 200), [get_data] returns, with one progress message
    for each scene "k of n", and every raster open without dataset has its
    error message in the log.  An exception in one scene, on the other
    hand, leaves [get_data] at once: it is raised again after the
    diagnostic, whatever scenes follow. *)
Theorem get_data_failures (h : Host) (scenes_dict : gmap string (list sc_info))
    (out_prefix out_dir temp_dir : string) (clip_extent : Polygon) (w : World) :
  let scenes := default [] (scenes_dict !! "scenes") in
  let total := Z.of_nat (length scenes) in
  (∀ sid u in_lyr fc out_file cog_url,
     fs w !! out_file = None →
     vsicurl (JStr u) = inr cog_url →
     gdal_OpenEx h (with_env_extent "MINOF" w) cog_url = inr None →
     download_img h sid (JStr u) in_lyr fc out_file w
     = Returns tt (with_log (open_failure h sid)
                     (with_net (EvOpen cog_url (inr None)) (with_env_extent "MINOF" w))))
  ∧ ((∀ item, item ∈ scenes → ∃ f1 f2 cp, prepared h out_prefix clip_extent item f1 f2 cp) →
     never_raises h →
     ∃ w' l, get_data h scenes_dict out_prefix out_dir temp_dir clip_extent w = Returns tt w'
             ∧ log w' = log w ++ l
             ∧ (∀ k, 1 ≤ k ≤ total → progress k total ∈ l)
             ∧ ∀ c, EvOpen c (inr None) ∈ net w' →
                    EvOpen c (inr None) ∈ net w
                    ∨ ∃ item, item ∈ scenes ∧ open_failure h (scene_id item) ∈ l)
  ∧ (∀ pre item post w1 w2 e,
       scenes = pre ++ item :: post →
       get_data_loop h the_session out_prefix out_dir temp_dir clip_extent total pre 0 w
       = Returns tt w1 →
       get_data_item h the_session out_prefix out_dir temp_dir clip_extent item w1
       = Raises e w2 →
       get_data h scenes_dict out_prefix out_dir temp_dir clip_extent w
       = Raises e (with_log (AddError "Error getting data: " (Some e)) w2)).
Proof.
  intros scenes total. split_and!.
  - intros. by apply download_img_open_none.
  - intros Hprep Hsoft. rewrite get_data_eq.
    destruct (get_data_loop_soft h the_session out_prefix out_dir temp_dir clip_extent total
                scenes 0 w Hprep Hsoft) as (w' & l & Hrun & Hl & Hk & Hn).
    fold scenes total. rewrite Hrun. exists w', l. split_and!; [done..| |done].
    intros k Hk'. apply Hk. unfold total in Hk'. lia.
  - intros pre item post w1 w2 e Hsc Hpre Hitem. rewrite get_data_eq.
    fold scenes total. rewrite Hsc.
    by rewrite (get_data_loop_abort _ _ _ _ _ _ _ _ _ _ _ _ _ _ _ Hpre Hitem).
Qed.

Lemma get_data_failures_witness :
  let h := Demo.host_with [] (Demo.status 404) (λ _, inr None) in
  let d := Demo.scenes [Demo.scene_x; Demo.scene_y] in
  never_raises h
  ∧ ∃ w', get_data h d "AOI1" "out" "out/temp" Demo.square Demo.w0 = Returns tt w'
          ∧ progress 1 2 ∈ log w' ∧ progress 2 2 ∈ log w'.
Proof.
  intros h d.
  assert (never_raises h) as Hsoft.
  { split_and!; intros; eexists; cbn; reflexivity. }
  split; [exact Hsoft|].
  destruct (get_data_failures h d "AOI1" "out" "out/temp" Demo.square Demo.w0)
    as (_ & Hrun & _).
  destruct Hrun as (w' & l & Hrun & Hl & Hk & _); [|exact Hsoft|].
  - intros item Hin. vm_compute in Hin.
    apply elem_of_cons in Hin as [->|Hin%list_elem_of_singleton]; [|subst item];
      eexists _, _, _; (split_and!; [intros; reflexivity..|]);
      eexists; split; reflexivity.
  - exists w'. rewrite Hl. split_and!; [done|apply Hk; vm_compute; intuition congruence..].
Defined.

(** C1 as stated does not hold: the metadata request of the first of two
    scenes fails (connection refused); the exception passes through
    [download_mtd] and [get_data], and the second scene is never looked
    at. *)
Lemma get_data_http_failure_aborts :
  let h := Demo.host [] Demo.opens_ok in
  let d := Demo.scenes [Demo.scene_x; Demo.scene_y] in
  let e := RequestException "connection refused" in
  let get := EvGet {| req_url := JStr "https://host/a/MTD.xml"; req_params := None |} (inl e) in
  ∃ w', get_data h d "AOI1" "out" "out/temp" Demo.square Demo.w0 = Raises e w'
        ∧ net w' = [EvOpen "/vsicurl/https://host/a/TCI.tif"
                      (inr (Some (Ds "/vsicurl/https://host/a/TCI.tif"))); get]
        ∧ log w' = [AddMessage "saved image for S2A_X in out/AOI1_S2A_X_TCI.tif";
                    AddError "Error downloading metadata for S2A_X: " (Some e);
                    AddError "Error getting data: " (Some e)]
        ∧ fs w' !! "out/AOI1_S2B_Y_TCI.tif" = None
        ∧ fs w' !! "out/AOI1_S2B_Y_metadata.xml" = None.
Proof.
  intros h d e get. eexists. split; [vm_compute; reflexivity|].
  split_and!; vm_compute; reflexivity.
Qed.

(** ** Log and raise again *)


Lemma search_stac_eq (h : Host) (fuel : nat) (url0 : json) (b_box start_date end_date : string)
    (collections : list string) (w : World) :
  search_stac h fuel url0 b_box start_date end_date collections w =
  handle is_RequestException "Error while searching STAC: " <$>
    search_loop h the_session (search_params b_box start_date end_date collections) fuel
      (initial_state url0) w.
Proof. reflexivity. Qed.



(** ** Pagination *)

(** The scene records of the features of one page, in order. *)
Fixpoint scene_records (features : list json) : Exn + list sc_info :=
  match features with
  | [] => inr []
  | feature :: rest =>
      let? sc := make_sc_info feature in
      let? scs := scene_records rest in
      inr (sc :: scs)
  end.

(** [context.returned] as the loop reads it. *)
Definition returned_of (h : Host) (response : Response) : Exn + Z :=
  let? response_json := body_json response in
  let? c := get2 response_json "context" "returned" in py_int h c.

(** Everything the loop reads from a page when the current URL is
    [url_in]: matched, returned, the URL to go on with, the scene records. *)
Definition read_page (h : Host) (response : Response) (url_in : json)
  : Exn + (Z * Z * json * list sc_info) :=
  let? response_json := body_json response in
  let? m := (let? c := get2 response_json "context" "matched" in py_int h c) in
  let? r := (let? c := get2 response_json "context" "returned" in py_int h c) in
  let? links := (let? l := py_get response_json "links" empty_dict in py_iter l) in
  let? url' := follow_links links url_in in
  let? features := (let? l := py_get response_json "features" empty_dict in py_iter l) in
  let? scs := scene_records features in
  inr (m, r, url', scs).

Lemma append_features_records (features : list json) (d : gmap string (list sc_info)) :
  match scene_records features with
  | inl e => append_features features d = inl e
  | inr scs => ∃ d', append_features features d = inr d'
                     ∧ dd_get d' "scenes" = dd_get d "scenes" ++ scs
  end.
Proof.
  revert d. induction features as [|f fs IH]; intros d; cbn.
  { exists d. by rewrite app_nil_r. }
  destruct (make_sc_info f) as [e|sc]; cbn; [done|].
  specialize (IH (<["scenes" := dd_get d "scenes" ++ [sc]]> d)).
  destruct (scene_records fs) as [e|scs]; cbn; [done|].
  destruct IH as (d' & -> & Hd'). exists d'. split; [done|].
  rewrite Hd'. unfold dd_get at 1. rewrite lookup_insert_eq. cbn.
  by rewrite <- app_assoc.
Qed.

Lemma read_page_returned (h : Host) (response : Response) (url_in : json) m r url' scs :
  read_page h response url_in = inr (m, r, url', scs) → returned_of h response = inr r.
Proof.
  unfold read_page, returned_of. destruct (body_json response) as [|j]; [done|]. cbn.
  destruct (ebind (get2 j "context" "matched") _); [done|]. cbn.
  destruct (ebind (get2 j "context" "returned") _) as [|r']; [done|]. cbn.
  destruct (ebind (py_get j "links" _) _); [done|]. cbn.
  destruct (follow_links _ _); [done|]. cbn.
  destruct (ebind (py_get j "features" _) _); [done|]. cbn.
  destruct (scene_records _); [done|]. cbn. congruence.
Qed.

(** One turn of the loop on a page with status 200 that can be read. *)
Lemma search_iter_page (h : Host) (session : Session) (params : Params) (st : LoopState)
    (w : World) (response : Response) m r url' scs :
  session_get h session w (next_request params st) = inr response →
  status_code response = 200 →
  read_page h response (url st) = inr (m, r, url', scs) →
  ∃ d' w',
    search_iter h session params st w
    = Returns (Continue {| url := url'; request_count := request_count st + 1;
                           matched := m; returned := r; scene_info := d' |}) w'
    ∧ dd_get d' "scenes" = dd_get (scene_info st) "scenes" ++ scs
    ∧ net w' = net w ++ [EvGet (next_request params st) (inr response)]
    ∧ fs w' = fs w.
Proof.
  intros Hget Hstatus Hread. unfold search_iter, bind at 1, http_get. rewrite Hget, Hstatus.
  cbn [Z.eqb Pos.eqb negb]. unfold read_page in Hread. unfold bind, lift, add_message.
  destruct (body_json response) as [|j]; [done|]. cbn in Hread.
  destruct (ebind (get2 j "context" "matched") _) as [|m']; [done|]. cbn in Hread.
  destruct (ebind (get2 j "context" "returned") _) as [|r']; [done|]. cbn in Hread.
  destruct (ebind (py_get j "links" _) _) as [|links]; [done|]. cbn in Hread.
  destruct (follow_links _ _) as [|u]; [done|]. cbn in Hread.
  destruct (ebind (py_get j "features" _) _) as [|features]; [done|]. cbn in Hread.
  pose proof (append_features_records features (scene_info st)) as Happ.
  destruct (scene_records features) as [|scs']; [done|]. cbn in Hread.
  destruct Happ as (d' & -> & Hd'). injection Hread as -> -> -> ->.
  eexists d', _. by split_and!.
Qed.

(** One turn of the loop on an answer with another status. *)
Lemma search_iter_status (h : Host) (session : Session) (params : Params) (st : LoopState)
    (w : World) (response : Response) :
  session_get h session w (next_request params st) = inr response →
  status_code response ≠ 200 →
  search_iter h session params st w
  = Returns (Break st)
      (with_log (AddError ("Error in request: " +:+ pretty (status_code response)) None)
         (with_net (EvGet (next_request params st) (inr response)) w)).
Proof.
  intros Hget Hstatus. unfold search_iter, bind at 1, http_get. rewrite Hget.
  apply Z.eqb_neq in Hstatus. by rewrite Hstatus.
Qed.

(** What a turn of the loop that returned has seen. *)
Lemma search_iter_inv (h : Host) (session : Session) (params : Params) (st : LoopState)
    (w w' : World) (fl : Flow) :
  search_iter h session params st w = Returns fl w' →
  ∃ response,
    net w' = net w ++ [EvGet (next_request params st) (inr response)]
    ∧ match fl with
      | Break st' => status_code response ≠ 200 ∧ st' = st
      | Continue st' => status_code response = 200
                        ∧ returned_of h response = inr (returned st')
                        ∧ request_count st' = request_count st + 1
      end.
Proof.
  unfold search_iter, bind at 1, http_get.
  destruct (session_get h session w _) as [|response]; [done|]. exists response.
  destruct (Z.eqb_spec (status_code response) 200) as [E|E]; cbn [negb] in *.
  2: { injection H as <- <-. by split_and!. }
  revert H. unfold bind, lift, add_message, returned_of.
  destruct (body_json response) as [|j]; [done|]. cbn.
  destruct (ebind (get2 j "context" "matched") _) as [|m']; [done|]. cbn.
  destruct (ebind (get2 j "context" "returned") _) as [|r']; [done|]. cbn.
  destruct (ebind (py_get j "links" _) _) as [|links]; [done|]. cbn.
  destruct (follow_links _ _) as [|u]; [done|]. cbn.
  destruct (ebind (py_get j "features" _) _) as [|features]; [done|]. cbn.
  destruct (append_features _ _) as [|d']; [done|]. cbn.
  intros [= <- <-]. by split_and!.
Qed.

Lemma count_gets_app (a b : list NetEvent) :
  count_gets (a ++ b) = (count_gets a + count_gets b)%nat.
Proof. induction a as [|[] a IH]; cbn; lia. Qed.

(** The host answers the GETs that follow the world [w0] with the
    responses of [script], in order. *)
Definition serves (h : Host) (w0 : World) (script : list Response) : Prop :=
  ∀ session w req k response,
    script !! k = Some response →
    count_gets (net w) = (count_gets (net w0) + k)%nat →
    session_get h session w req = inr response.

Lemma serves_tail (h : Host) (w w' : World) (r : Response) (script : list Response) :
  serves h w (r :: script) →
  count_gets (net w') = S (count_gets (net w)) →
  serves h w' script.
Proof.
  intros Hs Hn session w2 req k response Hk Hc.
  apply (Hs session w2 req (S k) response); [done|lia].
Qed.

(** A page with status 200 after which the loop goes on, and one after
    which it is left. *)
Definition continuing (h : Host) (response : Response) (scs : list sc_info) : Prop :=
  status_code response = 200
  ∧ ∀ url_in, ∃ m r url', read_page h response url_in = inr (m, r, url', scs) ∧ r ≠ 0.

Definition closing (h : Host) (response : Response) (scs : list sc_info) : Prop :=
  status_code response = 200
  ∧ ∀ url_in, ∃ m url', read_page h response url_in = inr (m, 0, url', scs).

Lemma search_loop_script (h : Host) (session : Session) (params : Params)
    (last : Response) (fin : list sc_info) (pages : list (Response * list sc_info))
    (st : LoopState) (w : World) (fuel : nat) :
  returned st ≠ 0 →
  serves h w (map fst pages ++ [last]) →
  Forall (λ p, continuing h p.1 p.2) pages →
  closing h last fin ∨ (status_code last ≠ 200 ∧ fin = []) →
  ((fuel ≤ length pages)%nat → search_loop h session params fuel st w = None)
  ∧ ((length pages < fuel)%nat →
     ∃ d w', search_loop h session params fuel st w = Some (Returns d w')
             ∧ dd_get d "scenes" = dd_get (scene_info st) "scenes" ++ concat (map snd pages) ++ fin
             ∧ count_gets (net w') = (count_gets (net w) + length pages + 1)%nat
             ∧ fs w' = fs w
             ∧ (status_code last ≠ 200 →
                ∃ l, log w' = l ++ [AddError ("Error in request: " +:+
                                              pretty (status_code last)) None])).
Proof.
  revert st w fuel. induction pages as [|[p scs] pages IH]; intros st w fuel Hret Hs Hcont Hlast.
  - apply Z.eqb_neq in Hret as Hret'. split; intros Hf.
    { destruct fuel; [|cbn in Hf; lia]. cbn. by rewrite Hret'. }
    destruct fuel as [|fuel]; [cbn in Hf; lia|]. cbn [search_loop]. rewrite Hret'.
    assert (session_get h session w (next_request params st) = inr last) as Hget.
    { apply (Hs session w _ 0%nat); [done|lia]. }
    destruct Hlast as [[Hst Hread]|[Hst ->]].
    + destruct (Hread (url st)) as (m & url' & Hr).
      destruct (search_iter_page _ _ _ _ _ _ _ _ _ _ Hget Hst Hr) as (d' & w' & -> & Hd & Hn & Hfs).
      exists d', w'. split; [by destruct fuel|]. split_and!; [done| |done|done].
      rewrite Hn, count_gets_app. cbn. lia.
    + rewrite (search_iter_status _ _ _ _ _ _ Hget Hst).
      eexists _, _. split; [done|]. cbn. rewrite app_nil_r, count_gets_app. cbn.
      split_and!; [done|lia|done|]. intros _. by eexists.
  - apply Z.eqb_neq in Hret as Hret'. apply Forall_cons in Hcont as [[Hst Hread] Hcont].
    cbn [fst snd] in *.
    destruct fuel as [|fuel].
    { split; intros Hf; [|cbn in Hf; lia]. cbn. by rewrite Hret'. }
    assert (session_get h session w (next_request params st) = inr p) as Hget.
    { apply (Hs session w _ 0%nat); [done|lia]. }
    destruct (Hread (url st)) as (m & r & url' & Hr & Hr0).
    destruct (search_iter_page _ _ _ _ _ _ _ _ _ _ Hget Hst Hr) as (d' & w' & Hit & Hd & Hn & Hfs).
    cbn [search_loop]. rewrite Hret', Hit.
    assert (count_gets (net w') = S (count_gets (net w))) as Hc.
    { rewrite Hn, count_gets_app. cbn. lia. }
    destruct (IH {| url := url'; request_count := request_count st + 1; matched := m;
                    returned := r; scene_info := d' |} w' fuel) as [Hnone Hsome];
      [exact Hr0|exact (serves_tail h w w' p _ Hs Hc)|done|done|].
    split; intros Hf; cbn [length] in Hf.
    { apply Hnone. lia. }
    destruct Hsome as (d & w2 & -> & Hd2 & Hn2 & Hfs2 & Hlog); [lia|].
    exists d, w2. split; [done|]. cbn [scene_info] in Hd2.
    split_and!; [|cbn [length]; lia|congruence|done].
    rewrite Hd2, Hd. cbn [map concat snd]. by rewrite <- !app_assoc.
Qed.

Lemma host_serves (responses : list Response) (fallback : Exn + Response)
    (opens : string → Exn + option Dataset) :
  serves (Demo.host_with (inr <$> responses) fallback opens) Demo.w0 responses.
Proof.
  intros session w req k response Hk Hc. cbn in Hc |- *.
  by rewrite Hc, list_lookup_fmap, Hk.
Qed.

Lemma search_stac_script (h : Host) (last : Response) (fin : list sc_info)
    (pages : list (Response * list sc_info)) (url0 : json)
    (b_box start_date end_date : string) (collections : list string) (w : World) (fuel : nat) :
  serves h w (map fst pages ++ [last]) →
  Forall (λ p, continuing h p.1 p.2) pages →
  closing h last fin ∨ (status_code last ≠ 200 ∧ fin = []) →
  ((fuel ≤ length pages)%nat →
   search_stac h fuel url0 b_box start_date end_date collections w = None)
  ∧ ((length pages < fuel)%nat →
     ∃ d w', search_stac h fuel url0 b_box start_date end_date collections w
             = Some (Returns d w')
             ∧ dd_get d "scenes" = concat (map snd pages) ++ fin
             ∧ count_gets (net w') = (count_gets (net w) + length pages + 1)%nat
             ∧ fs w' = fs w
             ∧ (status_code last ≠ 200 →
                ∃ l, log w' = l ++ [AddError ("Error in request: " +:+
                                              pretty (status_code last)) None])).
Proof.
  intros Hs Hpages Hlast. rewrite search_stac_eq.
  destruct (search_loop_script h the_session
              (search_params b_box start_date end_date collections) last fin pages
              (initial_state url0) w fuel) as [Hnone Hsome]; [done..|].
  split; intros Hf.
  - by rewrite Hnone.
  - destruct (Hsome Hf) as (d & w' & -> & Hd & Hrest). by exists d, w'.
Qed.

(** C4. Against a catalogue that answers with pages of status 200, of
    which all but the last report a returned count other than 0 and the
    last reports 0, the search is not over before the last page has been
    requested (less fuel than pages runs out), and then returns after
    exactly one GET per page, with the scene records of the pages one
    after the other in page order. *)
Theorem search_stac_pagination (h : Host) (pages : list (Response * list sc_info))
    (last : Response) (fin : list sc_info) (url0 : json)
    (b_box start_date end_date : string) (collections : list string) (w : World) :
  serves h w (map fst pages ++ [last]) →
  Forall (λ p, continuing h p.1 p.2) pages →
  closing h last fin →
  (∀ fuel, (fuel ≤ length pages)%nat →
     search_stac h fuel url0 b_box start_date end_date collections w = None)
  ∧ ∀ fuel, (length pages < fuel)%nat →
      ∃ d w', search_stac h fuel url0 b_box start_date end_date collections w
              = Some (Returns d w')
              ∧ dd_get d "scenes" = concat (map snd pages) ++ fin
              ∧ count_gets (net w') = (count_gets (net w) + length pages + 1)%nat.
Proof.
  intros Hs Hpages Hlast. split; intros fuel Hf.
  - destruct (search_stac_script h last fin pages url0 b_box start_date end_date collections
                w fuel Hs Hpages (or_introl Hlast)) as [Hnone _]. by apply Hnone.
  - destruct (search_stac_script h last fin pages url0 b_box start_date end_date collections
                w fuel Hs Hpages (or_introl Hlast)) as [_ Hsome].
    destruct (Hsome Hf) as (d & w' & ? & ? & ? & _). by exists d, w'.
Qed.

(** Two pages of 50 features with returned = 50, then a page without
    features with returned = 0: 100 scene records after three GETs. *)
Lemma search_stac_pagination_witness :
  let p1 := Demo.page 50 (Some "https://host/search?next=1") (Demo.numbered 0 50) in
  let p2 := Demo.page 50 (Some "https://host/search?next=2") (Demo.numbered 50 50) in
  let p3 := Demo.page 0 None [] in
  let h := Demo.host (inr <$> [p1; p2; p3]) Demo.opens_ok in
  ∃ d w', search_stac h 3 (JStr stac_url) "14,47,15,48" "2024-05-01" "2024-05-02"
            stac_collections Demo.w0 = Some (Returns d w')
          ∧ dd_get d "scenes" = Demo.records 0 50 ++ Demo.records 50 50
          ∧ length (dd_get d "scenes") = 100%nat
          ∧ count_gets (net w') = 3%nat
          ∧ search_stac h 2 (JStr stac_url) "14,47,15,48" "2024-05-01" "2024-05-02"
              stac_collections Demo.w0 = None.
Proof.
  intros p1 p2 p3 h.
  destruct (search_stac_pagination h [(p1, Demo.records 0 50); (p2, Demo.records 50 50)]
              p3 [] (JStr stac_url) "14,47,15,48" "2024-05-01" "2024-05-02"
              stac_collections Demo.w0) as [Hnone Hsome].
  - apply host_serves.
  - repeat apply Forall_cons_2; [| |apply Forall_nil_2].
    + split; [reflexivity|]. intros url_in.
      exists 100, 50, (JStr "https://host/search?next=1"). split; [vm_compute; reflexivity|lia].
    + split; [reflexivity|]. intros url_in.
      exists 100, 50, (JStr "https://host/search?next=2"). split; [vm_compute; reflexivity|lia].
  - split; [reflexivity|]. intros url_in. exists 100, url_in. reflexivity.
  - destruct (Hsome 3%nat) as (d & w' & Hrun & Hd & Hn); [cbn; lia|].
    exists d, w'. split; [exact Hrun|]. split_and!.
    + rewrite Hd. cbn [map concat snd]. by rewrite !app_nil_r.
    + rewrite Hd. reflexivity.
    + exact Hn.
    + apply Hnone. cbn. lia.
Defined.




(** ** Pages without a [next] link *)

(** No entry of [links] has [rel] equal to "next". *)
Definition no_next (links : list json) : Prop :=
  ∀ link, link ∈ links →
    ∃ rel, py_get link "rel" empty_dict = inr rel ∧ py_eq_str rel "next" = false.

Lemma follow_links_no_next (links : list json) (u : json) :
  no_next links → follow_links links u = inr u.
Proof.
  induction links as [|link links IH]; intros Hno; [done|]. cbn.
  destruct (Hno link) as (rel & -> & Hrel); [by left|]. cbn. rewrite Hrel.
  apply IH. intros l Hl. apply Hno. by right.
Qed.

Lemma read_page_no_next (h : Host) (response : Response) (url_in : json) j links m r url' scs :
  read_page h response url_in = inr (m, r, url', scs) →
  body_json response = inr j →
  (let? l := py_get j "links" empty_dict in py_iter l) = inr links →
  no_next links →
  url' = url_in.
Proof.
  unfold read_page. intros Hread Hj Hlinks Hno. rewrite Hj in Hread. cbn in Hread.
  destruct (ebind (get2 j "context" "matched") _); [done|]. cbn in Hread.
  destruct (ebind (get2 j "context" "returned") _); [done|]. cbn in Hread.
  rewrite Hlinks in Hread. cbn in Hread. rewrite (follow_links_no_next _ _ Hno) in Hread.
  cbn in Hread.
  destruct (ebind (py_get j "features" _) _); [done|]. cbn in Hread.
  destruct (scene_records _); [done|]. cbn in Hread. congruence.
Qed.

(** A search that returned has last seen a status other than 200 or a
    returned count of 0. *)
Lemma search_loop_returns_inv (h : Host) (session : Session) (params : Params) (fuel : nat)
    (st : LoopState) (w w' : World) (d : gmap string (list sc_info)) :
  returned st ≠ 0 →
  search_loop h session params fuel st w = Some (Returns d w') →
  ∃ tr req response,
    net w' = tr ++ [EvGet req (inr response)]
    ∧ (status_code response ≠ 200 ∨ returned_of h response = inr 0).
Proof.
  revert st w. induction fuel as [|fuel IH]; intros st w Hret; apply Z.eqb_neq in Hret as Hret';
    cbn [search_loop]; rewrite Hret'; [done|].
  destruct (search_iter h session params st w) as [[st'|st'] w1|] eqn:Hit; [| |done].
  - apply search_iter_inv in Hit as (response & Hn & Hst & Hr & _).
    destruct (decide (returned st' = 0)) as [E|E].
    + destruct fuel; cbn [search_loop]; rewrite E; cbn; intros [= <- <-];
        exists (net w), (next_request params st), response; rewrite <- E; eauto.
    + by apply IH.
  - apply search_iter_inv in Hit as (response & Hn & Hst & _).
    intros [= <- <-]. exists (net w), (next_request params st), response. eauto.
Qed.

(** Against pages that all report a returned count other than 0 the loop
    is never left. *)
Lemma search_loop_never (h : Host) (session : Session) (params : Params) :
  (∀ s w req, ∃ response scs, session_get h s w req = inr response
                              ∧ continuing h response scs) →
  ∀ fuel st w, returned st ≠ 0 → search_loop h session params fuel st w = None.
Proof.
  intros Hall. induction fuel as [|fuel IH]; intros st w Hret;
    apply Z.eqb_neq in Hret as Hret'; cbn [search_loop]; rewrite Hret'; [done|].
  destruct (Hall session w (next_request params st)) as (response & scs & Hget & Hst & Hread).
  destruct (Hread (url st)) as (m & r & url' & Hr & Hr0).
  destruct (search_iter_page _ _ _ _ _ _ _ _ _ _ Hget Hst Hr) as (d' & w' & -> & _).
  by apply IH.
Qed.

(** C10. After a page with status 200, a returned count other than 0 and
    no [next] entry among its links, the loop goes on and its next GET
    goes to the URL of the request before, without query parameters.  A
    search that returns has last received a status other than 200 or a
    returned count of 0; and against a catalogue every answer of which is
    a page with a returned count other than 0 it does not return, whatever
    the fuel. *)
Theorem search_stac_without_next (h : Host) (session : Session) (params : Params) :
  (∀ st w response j links m r url' scs,
     1 ≤ request_count st →
     session_get h session w (next_request params st) = inr response →
     status_code response = 200 →
     read_page h response (url st) = inr (m, r, url', scs) →
     r ≠ 0 →
     body_json response = inr j →
     (let? l := py_get j "links" empty_dict in py_iter l) = inr links →
     no_next links →
     ∃ st' w',
       search_iter h session params st w = Returns (Continue st') w'
       ∧ returned st' ≠ 0
       ∧ 1 ≤ request_count st'
       ∧ next_request params st'
         = {| req_url := req_url (next_request params st); req_params := None |})
  ∧ (∀ fuel url0 b_box start_date end_date collections w d w',
       search_stac h fuel url0 b_box start_date end_date collections w = Some (Returns d w') →
       ∃ tr req response,
         net w' = tr ++ [EvGet req (inr response)]
         ∧ (status_code response ≠ 200 ∨ returned_of h response = inr 0))
  ∧ ((∀ s w req, ∃ response scs, session_get h s w req = inr response
                                 ∧ continuing h response scs) →
     ∀ fuel url0 b_box start_date end_date collections w,
       search_stac h fuel url0 b_box start_date end_date collections w = None).
Proof.
  split_and!.
  - intros st w response j links m r url' scs Hrc Hget Hst Hread Hr Hj Hlinks Hno.
    pose proof (read_page_no_next _ _ _ _ _ _ _ _ _ Hread Hj Hlinks Hno) as ->.
    destruct (search_iter_page _ _ _ _ _ _ _ _ _ _ Hget Hst Hread) as (d' & w' & -> & _).
    eexists _, _. split; [reflexivity|]. cbn [returned request_count].
    split_and!; [done|lia|]. unfold next_request. cbn [request_count url].
    destruct (Z.eqb_spec (request_count st + 1) 1); [lia|].
    by destruct (request_count st =? 1).
  - intros fuel url0 b_box start_date end_date collections w d w'. rewrite search_stac_eq.
    destruct (search_loop _ _ _ _ _ _) as [[d1 w1|e1 w1]|] eqn:Hloop; [| |done].
    2: { cbn. by destruct (is_RequestException e1). }
    cbn. intros [= <- <-]. eapply search_loop_returns_inv; [|exact Hloop]. cbn. lia.
  - intros Hall fuel url0 b_box start_date end_date collections w. rewrite search_stac_eq.
    rewrite (search_loop_never h the_session _ Hall); [done|]. cbn. lia.
Qed.

(** A first page of two features without [next] link, then an empty page:
    both GETs go to the search URL, the second without parameters. *)
Lemma search_stac_without_next_witness :
  let p1 := Demo.page 2 None (Demo.numbered 0 2) in
  let p2 := Demo.page 0 None [] in
  let h := Demo.host (inr <$> [p1; p2]) Demo.opens_ok in
  let params := search_params "14,47,15,48" "2024-05-01" "2024-05-02" stac_collections in
  (∃ st' w', search_iter h the_session params (initial_state (JStr stac_url)) Demo.w0
             = Returns (Continue st') w'
             ∧ next_request params st' = {| req_url := JStr stac_url; req_params := None |})
  ∧ ∃ d w', search_stac h 2 (JStr stac_url) "14,47,15,48" "2024-05-01" "2024-05-02"
              stac_collections Demo.w0 = Some (Returns d w')
            ∧ net w' = [EvGet {| req_url := JStr stac_url; req_params := Some params |} (inr p1);
                        EvGet {| req_url := JStr stac_url; req_params := None |} (inr p2)].
Proof.
  intros p1 p2 h params.
  destruct (search_stac_without_next h the_session params) as (Hstep & _ & _).
  split.
  - destruct (Hstep (initial_state (JStr stac_url)) Demo.w0 p1
                (JObj [("context", JObj [("matched", JNum 100); ("returned", JNum 2)]);
                       ("links", JArr []); ("features", JArr (Demo.numbered 0 2))])
                [] 100 2 (JStr stac_url) (Demo.records 0 2))
      as (st' & w' & Hit & _ & _ & Hnext).
    + simpl. lia.
    + reflexivity.
    + reflexivity.
    + vm_compute. reflexivity.
    + lia.
    + reflexivity.
    + reflexivity.
    + intros link Hin. by apply elem_of_nil in Hin.
    + by exists st', w'.
  - eexists _, _. split; vm_compute; reflexivity.
Defined.

(** * Further properties of the helpers *)

(** The world an outcome leaves behind. *)
Definition world_of {A} (r : Res A) : World :=
  match r with Returns _ w => w | Raises _ w => w end.

(** ** [buffer_extent], whatever the reference of the input *)

(** Whenever [buffer_extent] returns, for a polygon in any spatial
    reference, the polygon it returns is in WGS84 and is a ring of five
    vertices whose last vertex is the first one, and the world is as it
    was: nothing was logged. *)
Theorem buffer_extent_ring (h : Host) (extent_poly : Polygon) (buffer : float) (w w' : World)
    (bb : string) (poly : Polygon) :
  buffer_extent h extent_poly buffer w = Returns (bb, poly) w' →
  w' = w
  ∧ factoryCode poly = 4326
  ∧ length (vertices poly) = 5%nat
  ∧ head (vertices poly) = last (vertices poly)
  ∧ ∃ used, (used = extent_poly ∨ projectAs h extent_poly 4326 = inr used)
            ∧ head (vertices poly)
              = Some {| X := (XMin (extent h used) - buffer / 100000)%float;
                        Y := (YMin (extent h used) - buffer / 100000)%float |}.
Proof.
  unfold buffer_extent, try_except, bind, lift, ret.
  case_bool_decide as Hsr.
  - destruct (projectAs h extent_poly 4326) as [e|q] eqn:Hp; cbn; [done|].
    intros [= <- <- <-]. split_and!; [done..|]. exists q. split; [by right|done].
  - cbn. intros [= <- <- <-]. split_and!; [done..|]. exists extent_poly. split; [by left|done].
Qed.

Lemma buffer_extent_returns (h : Host) (extent_poly : Polygon) (buffer : float) (w w' : World)
    (x : string * Polygon) :
  buffer_extent h extent_poly buffer w = Returns x w' → w' = w.
Proof.
  unfold buffer_extent, try_except, bind, lift, ret. case_bool_decide.
  - destruct (projectAs h extent_poly 4326); cbn; congruence.
  - cbn. congruence.
Qed.

Lemma buffer_extent_ring_witness :
  let h := Demo.host [] Demo.opens_ok in
  let utm := {| vertices := vertices Demo.square; factoryCode := 32633 |} in
  ∃ bb poly, buffer_extent h utm 250 Demo.w0 = Returns (bb, poly) Demo.w0
             ∧ factoryCode poly = 4326 ∧ length (vertices poly) = 5%nat.
Proof.
  intros h utm.
  destruct (buffer_extent h utm 250 Demo.w0) as [[bb poly] w'|e w'] eqn:E;
    [|by vm_compute in E].
  destruct (buffer_extent_ring h utm 250 Demo.w0 w' bb poly E) as (-> & Hsr & Hlen & _).
  by exists bb, poly.
Defined.

(** ** What a download touches *)

Lemma vsicurl_prefixed (in_url : json) (c : string) :
  vsicurl in_url = inr c →
  String.prefix "/vsicurl/" c = true
  ∧ vsicurl (JStr c) = inr c
  ∧ ∃ s, in_url = JStr s ∧ (c = s ∨ c = "/vsicurl/" +:+ s).
Proof.
  destruct in_url as [| | | |s| |]; try done. cbn.
  destruct (String.prefix "/vsicurl/" s) eqn:E; intros [= <-].
  - rewrite E. split_and!; [done..|]. exists s. by split; [|left].
  - assert (String.prefix "/vsicurl/" ("/vsicurl/" +:+ s) = true) as Hp
      by apply String.prefix_correct, substring_app_l.
    rewrite Hp. split_and!; [done..|]. exists s. by split; [|right].
Qed.

Ltac unfold_download :=
  unfold download_img, download_mtd, try_except, bind, path_exists, lift, open_ex,
    translate, clip, open_w, write, http_get, add_message, add_error, ret, handle.

Lemma download_img_effects (h : Host) (sid in_url : json) (in_lyr : string)
    (in_clip_fc : Polygon) (out_file : string) (w : World) :
  let w' := world_of (download_img h sid in_url in_lyr in_clip_fc out_file w) in
  (∀ p, p ≠ in_lyr → p ≠ out_file → fs w' !! p = fs w !! p)
  ∧ (∀ p, is_Some (fs w !! p) → is_Some (fs w' !! p))
  ∧ (∃ l, log w' = log w ++ l)
  ∧ (net w' = net w
     ∨ ∃ c out, net w' = net w ++ [EvOpen c out]
                ∧ fs w !! out_file = None
                ∧ String.prefix "/vsicurl/" c = true
                ∧ ∃ s, in_url = JStr s ∧ (c = s ∨ c = "/vsicurl/" +:+ s)).
Proof.
  assert (∀ (m : gmap string string) k v p, is_Some (m !! p) → is_Some (<[k := v]> m !! p)) as Hmono.
  { intros m k v p Hp. destruct (decide (k = p)) as [->|];
      [rewrite lookup_insert_eq; eauto | by rewrite lookup_insert_ne]. }
  unfold_download. case_bool_decide as Hex.
  { cbn. split_and!; [done|done|by eexists|by left]. }
  destruct (is_None in_url).
  { cbn. split_and!; [done|done|by eexists|by left]. }
  destruct (vsicurl in_url) as [e|c] eqn:Hc.
  { cbn. split_and!; [done|done|by eexists|by left]. }
  apply vsicurl_prefixed in Hc as (Hpre & _ & Hs).
  apply eq_None_not_Some in Hex.
  destruct (gdal_OpenEx h _ c) as [e|[d|]].
  1, 3: cbn; split_and!; [done|done|by eexists|right; by eexists _, _].
  cbn. destruct (gdal_Translate h _ in_lyr d) as [e|[c1|]].
  - cbn. split_and!; [done|done|by eexists|right; by eexists _, _].
  - destruct (arcpy_Clip h _ in_lyr out_file in_clip_fc) as [[e [part|]]|c2]; cbn.
    + split_and!; [by intros; rewrite !lookup_insert_ne|by auto|by eexists|right; by eexists _, _].
    + split_and!; [by intros; rewrite lookup_insert_ne|by auto|by eexists|right; by eexists _, _].
    + split_and!; [by intros; rewrite !lookup_insert_ne|by auto|by eexists|right; by eexists _, _].
  - destruct (arcpy_Clip h _ in_lyr out_file in_clip_fc) as [[e [part|]]|c2]; cbn.
    + split_and!; [by intros; rewrite lookup_insert_ne|by auto|by eexists|right; by eexists _, _].
    + split_and!; [done|done|by eexists|right; by eexists _, _].
    + split_and!; [by intros; rewrite lookup_insert_ne|by auto|by eexists|right; by eexists _, _].
Qed.


(** A [download_img] that raises has its diagnostic as last message, and
    leaves an output file behind only when it was the clip that raised and
    the clip had written a part of its output before (the intermediate
    raster is another file).  In every other case the next run finds the
    image missing and tries again; a part left by the clip, on the other
    hand, is taken for the image by every later call, which reports that
    the image exists and opens nothing. *)
Theorem download_img_raises_output (h : Host) (sid in_url : json) (in_lyr : string)
    (in_clip_fc : Polygon) (out_file : string) (w w' : World) (e : Exn) :
  in_lyr ≠ out_file →
  download_img h sid in_url in_lyr in_clip_fc out_file w = Raises e w' →
  (∃ l, log w' = log w ++ l ++ [AddError ("Error downloading image for " +:+ py_str h sid +:+ ": ")
                                         (Some e)])
  ∧ (fs w' !! out_file = None
     ∨ ∃ w1 part,
         arcpy_Clip h w1 in_lyr out_file in_clip_fc = inl (e, Some part)
         ∧ fs w' !! out_file = Some part
         ∧ ∀ h' sid' in_url' in_lyr' fc',
             ∃ w2, download_img h' sid' in_url' in_lyr' fc' out_file w' = Returns tt w2
                   ∧ net w2 = net w' ∧ fs w2 = fs w').
Proof.
  intros Hne Hrun.
  assert (∀ part, fs w' !! out_file = Some part →
            ∀ h' sid' in_url' in_lyr' fc',
              ∃ w2, download_img h' sid' in_url' in_lyr' fc' out_file w' = Returns tt w2
                    ∧ net w2 = net w' ∧ fs w2 = fs w') as Hlater.
  { intros part Hp h' sid' in_url' in_lyr' fc'. eexists.
    rewrite download_img_exists; [done|]. by rewrite Hp. }
  cut ((∃ l, log w' = log w ++ l ++ [AddError ("Error downloading image for " +:+
                                                py_str h sid +:+ ": ") (Some e)])
       ∧ (fs w' !! out_file = None
          ∨ ∃ w1 part, arcpy_Clip h w1 in_lyr out_file in_clip_fc = inl (e, Some part)
                       ∧ fs w' !! out_file = Some part)).
  { intros [Hl [Hn|(w1 & part & Hc & Hf)]]; (split; [done|]); [by left|right].
    exists w1, part. split_and!; [done|done|by apply (Hlater part)]. }
  clear Hlater. revert Hrun. unfold_download. case_bool_decide as Hex; [done|].
  apply eq_None_not_Some in Hex.
  destruct (is_None in_url); [done|].
  destruct (vsicurl in_url) as [e1|c]; cbn.
  { intros [= <- <-]. cbn. split; [by exists []|by left]. }
  destruct (gdal_OpenEx h _ c) as [e1|[d|]]; cbn; [| |done].
  { intros [= <- <-]. cbn. split; [by exists []|by left]. }
  destruct (gdal_Translate h _ in_lyr d) as [e1|[c1|]]; cbn.
  - intros [= <- <-]. cbn. split; [by exists []|by left].
  - destruct (arcpy_Clip h _ in_lyr out_file in_clip_fc) as [[e1 [part|]]|c2] eqn:Hclip;
      cbn; [| |done]; intros [= <- <-]; cbn; (split; [by exists []|]).
    + right. eexists _, part. split; [exact Hclip|]. by rewrite lookup_insert_eq.
    + left. by rewrite lookup_insert_ne.
  - destruct (arcpy_Clip h _ in_lyr out_file in_clip_fc) as [[e1 [part|]]|c2] eqn:Hclip;
      cbn; [| |done]; intros [= <- <-]; cbn; (split; [by exists []|]).
    + right. eexists _, part. split; [exact Hclip|]. by rewrite lookup_insert_eq.
    + by left.
Qed.

Lemma download_img_raises_output_witness :
  let failing := {| os_path := posixpath; path_join := λ d f, d +:+ "/" +:+ f;
                    float_str := Demo.hex_str; str_other := λ _, "?";
                    int_str := λ _, inl (ValueError "");
                    strftime := λ _ _, inl (ValueError "");
                    session_get := λ _ _ _, inl (RequestException "");
                    gdal_OpenEx := λ _ u, inr (Some (Ds u));
                    gdal_Translate := λ _ _ _, inl (RuntimeError "ERROR 4");
                    arcpy_Clip := λ _ _ _ _, inl (RuntimeError "ERROR 000259", None);
                    SpatialReference := λ _, inr 4326;
                    projectAs := λ p _, inr p;
                    extent := Demo.bounds |} in
  ∃ w', download_img failing (JStr "S2A_X") (JStr "https://host/a/TCI.tif")
          "out/temp/S2A_X_TCI.vrt" Demo.square "out/AOI1_S2A_X_TCI.tif" Demo.w0
        = Raises (RuntimeError "ERROR 4") w'
        ∧ fs w' !! "out/AOI1_S2A_X_TCI.tif" = None
        ∧ last (log w') = Some (AddError "Error downloading image for S2A_X: "
                                         (Some (RuntimeError "ERROR 4"))).
Proof.
  intros failing. eexists. split; [vm_compute; reflexivity|].
  split; [vm_compute; reflexivity|].
  match goal with |- last (log ?w') = _ =>
    destruct (download_img_raises_output failing (JStr "S2A_X") (JStr "https://host/a/TCI.tif")
                "out/temp/S2A_X_TCI.vrt" Demo.square "out/AOI1_S2A_X_TCI.tif" Demo.w0 w'
                (RuntimeError "ERROR 4")) as [[l Hl] _]
  end.
  - intros [=].
  - vm_compute. reflexivity.
  - rewrite Hl, app_assoc. apply last_snoc.
Defined.


(** ** Metadata downloads *)

Lemma download_mtd_effects (h : Host) (session : Session) (sid in_url : json)
    (out_file : string) (w : World) :
  let w' := world_of (download_mtd h session sid in_url out_file w) in
  (∀ p, p ≠ out_file → fs w' !! p = fs w !! p)
  ∧ (∀ p, is_Some (fs w !! p) → is_Some (fs w' !! p))
  ∧ (∃ l, log w' = log w ++ l)
  ∧ (net w' = net w
     ∨ ∃ out, net w' = net w ++ [EvGet {| req_url := in_url; req_params := None |} out])
  ∧ (fs w !! out_file = None → (is_Some (fs w' !! out_file) ↔ is_None in_url = false)).
Proof.
  assert (∀ (m : gmap string string) k v p, is_Some (m !! p) → is_Some (<[k := v]> m !! p)) as Hmono.
  { intros m k v p Hp. destruct (decide (k = p)) as [->|];
      [rewrite lookup_insert_eq; eauto | by rewrite lookup_insert_ne]. }
  unfold_download. case_bool_decide as Hex.
  { cbn. split_and!; [done|done|by eexists|by left|]. intros E. rewrite E in Hex.
    by destruct Hex. }
  destruct (is_None in_url).
  { cbn. split_and!; [done|done|by eexists|by left|]. intros ->. split; [by intros []|done]. }
  destruct (session_get h session _ _) as [e|response]; cbn.
  { split_and!; [by intros; rewrite lookup_insert_ne|by auto|by eexists|right; by eexists|].
    intros _. rewrite lookup_insert_eq. split; eauto. }
  destruct (status_code response =? 200); cbn.
  - split_and!; [by intros; rewrite !lookup_insert_ne|by auto|by eexists|right; by eexists|].
    intros _. rewrite lookup_insert_eq. split; eauto.
  - split_and!; [by intros; rewrite lookup_insert_ne|by auto|by exists []; rewrite app_nil_r|right; by eexists|].
    intros _. rewrite lookup_insert_eq. split; eauto.
Qed.






(** ** What [get_data] leaves behind *)

(** The network events [get_data] may add: a raster opened under
    /vsicurl/, a GET without query parameters. *)
Definition retrieval_event (ev : NetEvent) : Prop :=
  match ev with
  | EvOpen c _ => String.prefix "/vsicurl/" c = true
  | EvGet req _ => req_params req = None
  end.

(** [w'] comes after [w]: every file is still there, the log and the trace
    have only grown, and what the trace gained are retrieval events. *)
Definition grows (w w' : World) : Prop :=
  (∀ p, is_Some (fs w !! p) → is_Some (fs w' !! p))
  ∧ (∃ l, log w' = log w ++ l)
  ∧ ∃ evs, net w' = net w ++ evs ∧ Forall retrieval_event evs.

Lemma grows_refl (w : World) : grows w w.
Proof. split_and!; [done|exists []|exists []]; by rewrite app_nil_r. Qed.

Lemma grows_trans (w1 w2 w3 : World) : grows w1 w2 → grows w2 w3 → grows w1 w3.
Proof.
  intros (Hf1 & [l1 Hl1] & evs1 & Hn1 & He1) (Hf2 & [l2 Hl2] & evs2 & Hn2 & He2).
  split_and!; [by auto| |].
  - exists (l1 ++ l2). by rewrite Hl2, Hl1, app_assoc.
  - exists (evs1 ++ evs2). split; [by rewrite Hn2, Hn1, app_assoc|by apply Forall_app].
Qed.

Lemma grows_log (w : World) (l : LogEntry) : grows w (with_log l w).
Proof. split_and!; [done|by exists [l]|exists []]; by rewrite app_nil_r. Qed.

Lemma download_img_grows (h : Host) (sid in_url : json) (in_lyr : string) (fc : Polygon)
    (out_file : string) (w : World) :
  grows w (world_of (download_img h sid in_url in_lyr fc out_file w)).
Proof.
  destruct (download_img_effects h sid in_url in_lyr fc out_file w) as (_ & Hf & Hl & Hn).
  split_and!; [done..|].
  destruct Hn as [->|(c & out & -> & _ & Hc & _)].
  - exists []. by rewrite app_nil_r.
  - exists [EvOpen c out]. split; [done|]. by apply Forall_singleton.
Qed.

Lemma download_mtd_grows (h : Host) (session : Session) (sid in_url : json)
    (out_file : string) (w : World) :
  grows w (world_of (download_mtd h session sid in_url out_file w)).
Proof.
  destruct (download_mtd_effects h session sid in_url out_file w) as (_ & Hf & Hl & Hn & _).
  split_and!; [done..|].
  destruct Hn as [->|(out & ->)].
  - exists []. by rewrite app_nil_r.
  - eexists [_]. split; [done|]. by apply Forall_singleton.
Qed.

Lemma get_fname_from_url_grows (h : Host) (sid url : json) (pre suf : string) (w : World) :
  grows w (world_of (get_fname_from_url h sid url pre suf w)).
Proof.
  rewrite get_fname_from_url_pure. destruct (splitext _ _); [apply grows_log|apply grows_refl].
Qed.

Lemma get_data_item_grows (h : Host) (session : Session) (out_prefix out_dir temp_dir : string)
    (clip_extent : Polygon) (item : sc_info) (w : World) :
  grows w (world_of (get_data_item h session out_prefix out_dir temp_dir clip_extent item w)).
Proof.
  unfold get_data_item. unfold bind at 1.
  pose proof (get_fname_from_url_grows h (scene_id item) (vis_url item) out_prefix "TCI" w) as H1.
  destruct (get_fname_from_url h _ (vis_url item) _ _ w) as [f1 w1|]; [|done]. cbn in H1.
  unfold bind at 1.
  pose proof (get_fname_from_url_grows h (scene_id item) (mtd_url item) out_prefix "metadata" w1)
    as H2.
  destruct (get_fname_from_url h _ (mtd_url item) _ _ w1) as [f2 w2|]; cbn in H2;
    [|by eapply grows_trans].
  unfold bind at 1, lift at 1.
  destruct (SpatialReference h _) as [|sr]; cbn; [by eapply grows_trans|].
  unfold bind at 1, lift at 1.
  destruct (projectAs h _ _) as [|cp]; cbn; [by eapply grows_trans|].
  unfold bind.
  match goal with |- context [download_img ?a ?b ?c ?d ?e ?f w2] =>
    pose proof (download_img_grows a b c d e f w2) as H3;
    destruct (download_img a b c d e f w2) as [[] w3|] end; cbn in H3;
    [|by eauto using grows_trans].
  match goal with |- context [download_mtd ?a ?b ?c ?d ?e w3] =>
    pose proof (download_mtd_grows a b c d e w3) as H4;
    destruct (download_mtd a b c d e w3) as [[] w4|] end; cbn in H4;
    eauto using grows_trans.
Qed.

Lemma get_data_loop_grows (h : Host) (session : Session) (out_prefix out_dir temp_dir : string)
    (clip_extent : Polygon) (total : Z) (items : list sc_info) (count : Z) (w : World) :
  grows w (world_of (get_data_loop h session out_prefix out_dir temp_dir clip_extent total
                       items count w)).
Proof.
  revert count w. induction items as [|it items IH]; intros count w; [apply grows_refl|].
  cbn [get_data_loop]. unfold bind at 1.
  pose proof (get_data_item_grows h session out_prefix out_dir temp_dir clip_extent it w) as H1.
  destruct (get_data_item _ _ _ _ _ _ it w) as [[] w1|]; cbn in H1; [|done].
  unfold bind at 1, add_message at 1.
  eapply grows_trans; [exact H1|]. eapply grows_trans; [apply grows_log|]. apply IH.
Qed.

Lemma get_data_world_grows (h : Host) (scenes_dict : gmap string (list sc_info))
    (out_prefix out_dir temp_dir : string) (clip_extent : Polygon) (w : World) :
  grows w (world_of (get_data h scenes_dict out_prefix out_dir temp_dir clip_extent w)).
Proof.
  rewrite get_data_eq.
  match goal with |- context [get_data_loop ?a ?b ?c ?d ?e ?f ?g ?i ?j w] =>
    pose proof (get_data_loop_grows a b c d e f g i j w) as H;
    destruct (get_data_loop a b c d e f g i j w) as [[] w1|e1 w1] end; cbn in H |- *.
  - exact H.
  - exact (grows_trans _ _ _ H (grows_log _ _)).
Qed.

(** [get_data] never removes a file, and all it does on the network,
    whether it returns or raises, is to open rasters under /vsicurl/ and
    to GET without query parameters. *)
Theorem get_data_grows (h : Host) (scenes_dict : gmap string (list sc_info))
    (out_prefix out_dir temp_dir : string) (clip_extent : Polygon) (w : World) :
  let w' := world_of (get_data h scenes_dict out_prefix out_dir temp_dir clip_extent w) in
  (∀ p, is_Some (fs w !! p) → is_Some (fs w' !! p))
  ∧ (∃ l, log w' = log w ++ l)
  ∧ ∃ evs, net w' = net w ++ evs ∧ Forall retrieval_event evs.
Proof.
  intros w'. subst w'.
  destruct (get_data_world_grows h scenes_dict out_prefix out_dir temp_dir clip_extent w)
    as (Hkeep & Hlog & Hnet).
  split_and!; assumption.
Qed.





(** ** Features with missing members *)

Definition is_obj (v : json) : bool :=
  match v with JObj _ => true | _ => false end.

(** The members [make_sc_info] calls [.get] on are objects where they are
    present. *)
Definition feature_shape (feature : json) : bool :=
  match feature with
  | JObj kv =>
      is_obj (default empty_dict (assoc "properties" kv))
      && match default empty_dict (assoc "assets" kv) with
         | JObj akv =>
             is_obj (default empty_dict (assoc "thumbnail" akv))
             && is_obj (default empty_dict (assoc "visual" akv))
             && is_obj (default empty_dict (assoc "granule_metadata" akv))
         | _ => false
         end
  | _ => false
  end.

(** A member that is absent never makes [make_sc_info] fail: the record is
    built exactly when the feature is an object whose [properties],
    [assets] and the three assets read are objects or absent, and an absent
    value comes back as [{}] (a null one as None); any other feature raises
    AttributeError. *)
Theorem make_sc_info_shape (feature : json) :
  (feature_shape feature = true →
   ∃ kv sc, feature = JObj kv ∧ make_sc_info feature = inr sc
            ∧ scene_id sc = default empty_dict (assoc "id" kv)
            ∧ bbox sc = default empty_dict (assoc "bbox" kv)
            ∧ (assoc "assets" kv = None →
               ql_url sc = empty_dict ∧ vis_url sc = empty_dict ∧ mtd_url sc = empty_dict)
            ∧ (assoc "properties" kv = None →
               scene_datetime sc = empty_dict ∧ scene_uri sc = empty_dict
               ∧ cloud_cover sc = empty_dict ∧ epsg_code sc = empty_dict))
  ∧ (feature_shape feature = false →
     make_sc_info feature = inl (AttributeError "object has no attribute 'get'")).
Proof.
  destruct feature as [| | | | | |kv]; try (split; [done|reflexivity]).
  unfold feature_shape, make_sc_info, get2, get3. cbn [py_get ebind].
  destruct (assoc "properties" kv) as [props|] eqn:Hp; cbn [from_option id].
  - destruct props as [| | | | | |pkv]; try (split; [done|reflexivity]).
    destruct (assoc "assets" kv) as [assets|] eqn:Ha; cbn [from_option id].
    + destruct assets as [| | | | | |akv]; try (split; [done|reflexivity]).
      cbn [py_get ebind is_obj andb].
      destruct (default empty_dict (assoc "thumbnail" akv)) as [| | | | | |tkv];
        try (split; [done|reflexivity]).
      destruct (default empty_dict (assoc "visual" akv)) as [| | | | | |vkv];
        try (split; [done|reflexivity]).
      destruct (default empty_dict (assoc "granule_metadata" akv)) as [| | | | | |gkv];
        try (split; [done|reflexivity]).
      split; [|done]. intros _. eexists kv, _. cbn.
      split_and!; try done; intros; try congruence; by split_and!.
    + split; [|done]. intros _. eexists kv, _. cbn.
      split_and!; try done; intros; try congruence; by split_and!.
  - destruct (assoc "assets" kv) as [assets|] eqn:Ha; cbn [from_option id].
    + destruct assets as [| | | | | |akv]; try (split; [done|reflexivity]).
      cbn [py_get ebind is_obj andb].
      destruct (default empty_dict (assoc "thumbnail" akv)) as [| | | | | |tkv];
        try (split; [done|reflexivity]).
      destruct (default empty_dict (assoc "visual" akv)) as [| | | | | |vkv];
        try (split; [done|reflexivity]).
      destruct (default empty_dict (assoc "granule_metadata" akv)) as [| | | | | |gkv];
        try (split; [done|reflexivity]).
      split; [|done]. intros _. eexists kv, _. cbn.
      split_and!; try done; intros; try congruence; by split_and!.
    + split; [|done]. intros _. eexists kv, _. cbn.
      split_and!; try done; intros; try congruence; by split_and!.
Qed.

(** ** Several [next] links *)

Lemma follow_links_app (l1 l2 : list json) (u : json) :
  follow_links (l1 ++ l2) u = (let? u' := follow_links l1 u in follow_links l2 u').
Proof.
  revert u. induction l1 as [|link l1 IH]; intros u; [done|]. cbn.
  destruct (py_get link "rel" empty_dict) as [|rel]; [done|]. cbn.
  destruct (py_eq_str rel "next"); [|apply IH].
  destruct (py_get link "href" empty_dict); [done|]. cbn. apply IH.
Qed.

Lemma follow_links_objects (l : list json) (u : json) :
  Forall (λ link, is_obj link = true) l → ∃ u', follow_links l u = inr u'.
Proof.
  revert u. induction l as [|link l IH]; intros u Hl; [by exists u|].
  apply Forall_cons in Hl as [Hlink Hl]. destruct link; try done. cbn.
  destruct (py_eq_str _ _); cbn; by apply IH.
Qed.

(** The loop over the links does not stop at the first [next] entry: of
    several, the last one gives the URL of the next request; an entry
    without [href] gives [{}]. *)
Theorem follow_links_last_next (before after : list json) (kv : list (string * json))
    (u : json) :
  Forall (λ link, is_obj link = true) before →
  py_eq_str (default empty_dict (assoc "rel" kv)) "next" = true →
  no_next after →
  follow_links (before ++ JObj kv :: after) u = inr (default empty_dict (assoc "href" kv)).
Proof.
  intros Hb Hrel Ha. rewrite follow_links_app.
  destruct (follow_links_objects before u Hb) as [u' ->]. cbn. rewrite Hrel.
  by apply follow_links_no_next.
Qed.

Lemma follow_links_last_next_witness :
  follow_links [JObj [("rel", JStr "next"); ("href", JStr "https://host/a")];
                JObj [("rel", JStr "self"); ("href", JStr "https://host/s")];
                JObj [("rel", JStr "next"); ("href", JStr "https://host/b")];
                JObj [("rel", JStr "root")]]
    (JStr stac_url) = inr (JStr "https://host/b").
Proof.
  apply (follow_links_last_next
           [JObj [("rel", JStr "next"); ("href", JStr "https://host/a")];
            JObj [("rel", JStr "self"); ("href", JStr "https://host/s")]]
           [JObj [("rel", JStr "root")]]
           [("rel", JStr "next"); ("href", JStr "https://host/b")]).
  - repeat constructor.
  - reflexivity.
  - intros link Hin. apply list_elem_of_singleton in Hin as ->. by eexists.
Defined.

(** ** The requests of a search *)

(** A GET without query parameters. *)
Definition bare_get (ev : NetEvent) : Prop :=
  match ev with
  | EvGet req _ => req_params req = None
  | EvOpen _ _ => False
  end.

(** One turn of the loop, however it ends, adds one GET, the one
    [next_request] describes, and writes no file. *)
Lemma search_iter_world (h : Host) (session : Session) (params : Params) (st : LoopState)
    (w : World) :
  let r := search_iter h session params st w in
  fs (world_of r) = fs w
  ∧ (∃ out, net (world_of r) = net w ++ [EvGet (next_request params st) out])
  ∧ ∀ st' w', r = Returns (Continue st') w' → request_count st' = request_count st + 1.
Proof.
  intros r. assert (r = search_iter h session params st w) as Hr by reflexivity.
  clearbody r. revert Hr. unfold search_iter, bind at 1, http_get.
  assert (∀ e w1, fs w1 = fs w →
            (∃ out, net w1 = net w ++ [EvGet (next_request params st) out]) →
            fs (world_of (@Raises Flow e w1)) = fs w
            ∧ (∃ out, net (world_of (@Raises Flow e w1))
                      = net w ++ [EvGet (next_request params st) out])
            ∧ ∀ st' w', @Raises Flow e w1 = Returns (Continue st') w' →
                        request_count st' = request_count st + 1) as Hraise.
  { intros e w1 Hf Hn. by split_and!. }
  destruct (session_get h session w _) as [e|response].
  { intros ->. apply Hraise; [done|by eexists]. }
  destruct (negb _); cbn.
  { intros ->. cbn. split_and!; [done|by eexists|done]. }
  unfold bind, lift, add_message.
  destruct (body_json response) as [|j]; cbn; [intros ->; apply Hraise; [done|by eexists]|].
  destruct (ebind (get2 j "context" "matched") _); cbn;
    [intros ->; apply Hraise; [done|by eexists]|].
  destruct (ebind (get2 j "context" "returned") _); cbn;
    [intros ->; apply Hraise; [done|by eexists]|].
  destruct (ebind (py_get j "links" _) _); cbn;
    [intros ->; apply Hraise; [done|by eexists]|].
  destruct (follow_links _ _); cbn; [intros ->; apply Hraise; [done|by eexists]|].
  destruct (ebind (py_get j "features" _) _); cbn;
    [intros ->; apply Hraise; [done|by eexists]|].
  destruct (append_features _ _); cbn; [intros ->; apply Hraise; [done|by eexists]|].
  intros ->. cbn. split_and!; [done|by eexists|]. by intros st' w' [= <- _].
Qed.

Lemma search_loop_later_requests (h : Host) (session : Session) (params : Params) (fuel : nat)
    (st : LoopState) (w : World) (r : Res (gmap string (list sc_info))) :
  1 < request_count st →
  search_loop h session params fuel st w = Some r →
  fs (world_of r) = fs w
  ∧ ∃ evs, net (world_of r) = net w ++ evs ∧ Forall bare_get evs.
Proof.
  revert st w. induction fuel as [|fuel IH]; intros st w Hrc; cbn [search_loop];
    destruct (returned st =? 0).
  1, 3: intros [= <-]; split; [done|]; exists []; by rewrite app_nil_r.
  { done. }
  destruct (search_iter_world h session params st w) as (Hfs & [out Hn] & Hcount).
  assert (bare_get (EvGet (next_request params st) out)) as Hbare.
  { unfold next_request. destruct (Z.eqb_spec (request_count st) 1); [lia|done]. }
  destruct (search_iter h session params st w) as [[st'|st'] w1|e w1]; cbn in Hfs, Hn.
  - intros Hloop. specialize (Hcount st' w1 eq_refl).
    destruct (IH st' w1 ltac:(lia) Hloop) as (Hfs' & evs & Hn' & Hevs).
    split; [congruence|]. exists (EvGet (next_request params st) out :: evs).
    split; [by rewrite Hn', Hn, <- app_assoc|by constructor].
  - intros [= <-]. split; [done|]. eexists [_]. split; [done|by constructor].
  - intros [= <-]. split; [done|]. eexists [_]. split; [done|by constructor].
Qed.

Lemma search_stac_effects (h : Host) (fuel : nat) (url0 : json)
    (b_box start_date end_date : string) (collections : list string) (w : World)
    (r : Res (gmap string (list sc_info))) :
  search_stac h fuel url0 b_box start_date end_date collections w = Some r →
  fs (world_of r) = fs w
  ∧ ∃ out rest,
      net (world_of r)
      = net w ++ EvGet {| req_url := url0;
                          req_params := Some (search_params b_box start_date end_date
                                                collections) |} out :: rest
      ∧ Forall bare_get rest.
Proof.
  rewrite search_stac_eq. destruct fuel as [|fuel]; [done|].
  set (params := search_params _ _ _ _). set (st0 := initial_state url0).
  cbn [search_loop]. change (returned st0 =? 0) with false. cbv iota.
  destruct (search_iter_world h the_session params st0 w) as (Hfs & [out Hn] & Hcount).
  assert (next_request params st0 = {| req_url := url0; req_params := Some params |}) as Hreq
    by reflexivity.
  rewrite Hreq in Hn.
  assert (∀ r0 : Res (gmap string (list sc_info)),
            fs (world_of (handle is_RequestException "Error while searching STAC: " r0))
            = fs (world_of r0)
            ∧ net (world_of (handle is_RequestException "Error while searching STAC: " r0))
              = net (world_of r0)) as Hh.
  { intros [a w1|e w1]; cbn; [done|]. by destruct (is_RequestException e). }
  destruct (search_iter h the_session params st0 w) as [[st'|st'] w1|e w1]; cbn in Hfs, Hn.
  - specialize (Hcount st' w1 eq_refl). change (request_count st0) with 1 in Hcount.
    destruct (search_loop h the_session params fuel st' w1) as [r1|] eqn:Hloop; [|done].
    cbn. intros [= <-].
    assert (1 < request_count st') as Hgt by lia.
    destruct (search_loop_later_requests _ _ _ _ _ _ _ Hgt Hloop)
      as (Hfs' & evs & Hn' & Hevs).
    destruct (Hh r1) as [-> ->]. split; [congruence|].
    exists out, evs. by rewrite Hn', Hn, <- app_assoc.
  - cbn. intros [= <-]. cbn. split; [done|]. exists out, []. by split.
  - cbn [fmap option_fmap option_map]. intros [= <-].
    destruct (is_RequestException e); cbn; (split; [done|]); exists out, []; by split.
Qed.

(** However a search ends, it has written no file, and its requests are
    one GET to the search URL with the query parameters, followed by GETs
    without query parameters. *)
Theorem search_stac_requests (h : Host) (fuel : nat) (url0 : json)
    (b_box start_date end_date : string) (collections : list string) (w : World)
    (r : Res (gmap string (list sc_info))) :
  search_stac h fuel url0 b_box start_date end_date collections w = Some r →
  fs (world_of r) = fs w
  ∧ ∃ out rest,
      net (world_of r)
      = net w ++ EvGet {| req_url := url0;
                          req_params := Some (search_params b_box start_date end_date
                                                collections) |} out :: rest
      ∧ Forall bare_get rest.
Proof.
  intros Hrun.
  destruct (search_stac_effects h fuel url0 b_box start_date end_date collections w r Hrun)
    as (Hfs & out & rest & Hnet & Hbare).
  split; [exact Hfs|]. by exists out, rest.
Qed.

Lemma search_stac_requests_witness :
  let p1 := Demo.page 2 (Some "https://host/search?next=1") (Demo.numbered 0 2) in
  let h := Demo.host (inr <$> [p1; Demo.page 0 None []]) Demo.opens_ok in
  ∃ r, search_stac h 5 (JStr stac_url) "14,47,15,48" "2024-05-01" "2024-05-02"
         stac_collections Demo.w0 = Some r
       ∧ fs (world_of r) = ∅ ∧ length (net (world_of r)) = 2%nat.
Proof.
  intros p1 h. eexists. split; [vm_compute; reflexivity|].
  match goal with |- fs (world_of ?r) = _ ∧ _ =>
    destruct (search_stac_requests h 5 (JStr stac_url) "14,47,15,48" "2024-05-01" "2024-05-02"
                stac_collections Demo.w0 r) as [Hfs _]; [vm_compute; reflexivity|]
  end.
  split; [exact Hfs|vm_compute; reflexivity].
Defined.

(** ** A request that raises, a page without [context] *)




(** A first page with status 200 whose body has no [context] member makes
    [int({})] raise TypeError: the search raises it after the one GET and
    neither [search_stac] nor anything below it has logged a word. *)
Theorem search_stac_no_context (h : Host) (url0 : json)
    (b_box start_date end_date : string) (collections : list string) (w : World)
    (response : Response) (kv : list (string * json)) (fuel : nat) :
  let request := {| req_url := url0;
                    req_params := Some (search_params b_box start_date end_date collections) |} in
  session_get h the_session w request = inr response →
  status_code response = 200 →
  body_json response = inr (JObj kv) →
  assoc "context" kv = None →
  fuel ≠ 0%nat →
  search_stac h fuel url0 b_box start_date end_date collections w
  = Some (Raises (TypeError "int() argument must be a string, a bytes-like object or a real number")
            (with_net (EvGet request (inr response)) w)).
Proof.
  intros request Hget Hst Hbody Hctx Hfuel. rewrite search_stac_eq.
  destruct fuel as [|fuel]; [done|]. cbn [search_loop initial_state returned].
  change (-9999 =? 0) with false. cbv iota.
  unfold search_iter, bind at 1, http_get.
  change (next_request _ _) with request. rewrite Hget, Hst. cbn [Z.eqb Pos.eqb negb].
  unfold bind at 1, lift at 1. rewrite Hbody.
  unfold bind at 1, lift at 1, get2. cbn [py_get ebind]. rewrite Hctx. reflexivity.
Qed.

Lemma search_stac_no_context_witness :
  let bare := {| status_code := 200; body_json := inr (JObj [("features", JArr [])]);
                 text := "" |} in
  let h := Demo.host [inr bare] Demo.opens_ok in
  ∃ e w', search_stac h 1 (JStr stac_url) "14,47,15,48" "2024-05-01" "2024-05-02"
            stac_collections Demo.w0 = Some (Raises e w')
          ∧ log w' = [] ∧ is_RequestException e = false.
Proof.
  intros bare h. eexists _, _. split.
  - apply (search_stac_no_context h (JStr stac_url) "14,47,15,48" "2024-05-01" "2024-05-02"
             stac_collections Demo.w0 bare [("features", JArr [])] 1);
      [reflexivity|reflexivity|reflexivity|reflexivity|lia].
  - split; reflexivity.
Defined.

(** ** A search that finds nothing *)

(** When the first page reports a returned count of 0 and has no
    features, the result has no "scenes" entry at all, and [get_data] on
    it returns at once: no message, no request, no file. *)
Theorem search_nothing_get_data (h : Host) (last : Response) (url0 : json)
    (b_box start_date end_date : string) (collections : list string) (w : World) (fuel : nat) :
  serves h w [last] →
  closing h last [] →
  fuel ≠ 0%nat →
  ∃ d w', search_stac h fuel url0 b_box start_date end_date collections w
          = Some (Returns d w')
          ∧ d !! "scenes" = None
          ∧ ∀ h' out_prefix out_dir temp_dir clip_extent,
              get_data h' d out_prefix out_dir temp_dir clip_extent w' = Returns tt w'.
Proof.
  intros Hs [Hst Hread] Hfuel. rewrite search_stac_eq.
  destruct fuel as [|fuel]; [done|].
  set (params := search_params _ _ _ _). set (st0 := initial_state url0).
  cbn [search_loop]. change (returned st0 =? 0) with false. cbv iota.
  assert (session_get h the_session w (next_request params st0) = inr last) as Hget.
  { apply (Hs the_session w _ 0%nat); [done|lia]. }
  destruct (Hread (url st0)) as (m & url' & Hr).
  unfold search_iter, bind at 1, http_get. rewrite Hget, Hst. cbn [Z.eqb Pos.eqb negb].
  unfold read_page in Hr. unfold bind, lift, add_message.
  destruct (body_json last) as [|j]; [done|]. cbn in Hr.
  destruct (ebind (get2 j "context" "matched") _) as [|m']; [done|]. cbn in Hr.
  destruct (ebind (get2 j "context" "returned") _) as [|r']; [done|]. cbn in Hr.
  destruct (ebind (py_get j "links" _) _) as [|links]; [done|]. cbn in Hr.
  destruct (follow_links _ _) as [|u]; [done|]. cbn in Hr.
  destruct (ebind (py_get j "features" _) _) as [|features]; [done|]. cbn in Hr.
  destruct features as [|f features]; cbn in Hr.
  2: { destruct (make_sc_info f); [done|]. cbn in Hr. by destruct (scene_records features). }
  injection Hr as -> -> ->. cbn.
  eexists _, _. split; [by destruct fuel|]. split; [done|].
  intros h' out_prefix out_dir temp_dir clip_extent. by rewrite get_data_eq.
Qed.

Lemma search_nothing_get_data_witness :
  let h := Demo.host (inr <$> [Demo.page 0 None []]) Demo.opens_ok in
  ∃ d w', search_stac h 1 (JStr stac_url) "14,47,15,48" "2024-05-01" "2024-05-02"
            stac_collections Demo.w0 = Some (Returns d w')
          ∧ get_data h d "AOI1" "out" "out/temp" Demo.square w' = Returns tt w'.
Proof.
  intros h.
  destruct (search_nothing_get_data h (Demo.page 0 None []) (JStr stac_url) "14,47,15,48"
              "2024-05-01" "2024-05-02" stac_collections Demo.w0 1)
    as (d & w' & Hrun & _ & Hget).
  - apply host_serves.
  - split; [reflexivity|]. intros url_in. by exists 100, url_in.
  - lia.
  - exists d, w'. split; [exact Hrun|apply Hget].
Defined.

(** ** URLs without extension *)

(** A URL whose last path component holds no dot has no extension,
    whatever dots the host name or the directories hold: the file name is
    "<prefix>_<sceneId>_<suffix>" and nothing more. *)
Theorem get_fname_from_url_no_extension (h : Host) (sid : json) (base : string) (c : ascii)
    (tail file_prefix file_suffix : string) (w : World) :
  is_sep (os_path h) c →
  rfind extsep tail = -1 →
  get_fname_from_url h sid (JStr (base +:+ String c tail)) file_prefix file_suffix w
  = Returns (file_prefix +:+ "_" +:+ py_str h sid +:+ "_" +:+ file_suffix) w.
Proof.
  intros Hc Htail. rewrite get_fname_from_url_pure. cbn [splitext].
  assert (_splitext (os_path h) (base +:+ String c tail) = (base +:+ String c tail, "")) as ->.
  { unfold _splitext. fold (sep_index (os_path h) (base +:+ String c tail)).
    pose proof (sep_index_ge (os_path h) c (base +:+ String c tail) Hc) as Hge.
    rewrite rfind_app in Hge. rewrite (rfind_cons c c), Ascii.eqb_refl in Hge.
    pose proof (rfind_bounds c tail). pose proof (rfind_bounds extsep base).
    assert (rfind extsep (base +:+ String c tail) = rfind extsep base) as ->.
    { rewrite rfind_app, rfind_cons, Htail, Z.eqb_refl.
      destruct (Ascii.eqb_spec c extsep) as [E|_]; [by destruct (is_sep_not_dot _ _ Hc)|].
      by rewrite Z.eqb_refl. }
    assert ((sep_index (os_path h) (base +:+ String c tail) <? rfind extsep base) = false) as ->;
      [|done].
    apply Z.ltb_ge.
    destruct (Z.eqb_spec (rfind c tail) (-1)) as [E|E].
    - change (0 =? -1) with false in Hge. cbv iota in Hge. lia.
    - destruct (Z.eqb_spec (1 + rfind c tail) (-1)); lia. }
  cbn [snd]. by rewrite app_nil_r_s.
Qed.

Lemma get_fname_from_url_no_extension_witness :
  get_fname_from_url (Demo.host [] Demo.opens_ok) (JStr "S2A_X")
    (JStr "https://earth-search.aws.element84.com/v1/search") "AOI1" "TCI" Demo.w0
  = Returns "AOI1_S2A_X_TCI" Demo.w0.
Proof.
  apply (get_fname_from_url_no_extension (Demo.host [] Demo.opens_ok) (JStr "S2A_X")
           "https://earth-search.aws.element84.com/v1" "/" "search" "AOI1" "TCI" Demo.w0).
  - by left.
  - reflexivity.
Defined.

(** * The tools: [execute] of [GetImgFromScreen] and [GetImgFromShp] *)

(** What the tools ask of the desktop application and the operating
    system.  The parameters are required ones: their text is a string. *)
Record Desktop : Type := {
  getuser : Exn + string;                        (* getpass.getuser() *)
  float_of_text : string → Exn + float;          (* float(valueAsText) *)
  makedirs : World → string → option Exn;        (* os.makedirs(dir): the exception, if any *)
  active_view_polygon : World → Exn + Polygon;   (* ArcGISProject("CURRENT").activeView
                                                      .camera.getExtent().polygon *)
  search_cursor : World → string → string → Exn + list (json * Polygon)
                                                 (* the rows of SearchCursor(in_fc,
                                                      [field, "SHAPE@"]), read when it opens *)
}.

(** A computation that may also run out of fuel inside [search_stac]. *)
Definition MF (A : Type) : Type := World → option (Res A).

Definition bindF {A B} (m : MF A) (k : A → MF B) : MF B :=
  fun w => match m w with
           | None => None
           | Some (Returns a w') => k a w'
           | Some (Raises e w') => Some (Raises e w')
           end.

Definition run {A} (m : M A) : MF A := fun w => Some (m w).

Notation "'let+' x := m 'in' k" := (bindF m (fun x => k))
  (at level 10, x name, m at level 100, k at level 200).

Definition try_exceptF {A} (covers : Exn → bool) (msg : string) (body : MF A) : MF A :=
  fun w => handle covers msg <$> body w.

Definition nl : string := String "010"%char "".

(** [if not os.path.exists(_dir): os.makedirs(_dir); AddMessage(...)]; a
    directory is a path that exists. *)
Definition ensure_dir (d : Desktop) (dir : string) : M unit :=
  let* present := path_exists dir in
  if present then ret tt
  else
    ((fun w => match makedirs d w dir with
               | Some e => Raises e w
               | None => Returns tt (with_fs <[dir := ""]> w)
               end);;
     add_message ("created " +:+ dir)).

(** The lines both tools share: the buffer, the message with the user and
    the parameters, the two directories. *)
Definition tool_setup (h : Host) (d : Desktop) (label : string) (start_date end_date : json)
    (buffer_text : string) (lines : string) (out_dir : string) : M (float * string) :=
  let* buffer := lift (float_of_text d buffer_text) in
  let* user := lift (getuser d) in
  (add_message (nl +:+ "============" +:+ label +:+ "============" +:+ nl +:+
                "User: " +:+ user +:+ nl +:+
                "Start Date: " +:+ py_str h start_date +:+ nl +:+
                "End Date: " +:+ py_str h end_date +:+ nl +:+
                "Buffer Distance (Meters): " +:+ float_str h buffer +:+ nl +:+
                lines +:+
                "Output Directory: " +:+ out_dir +:+ nl +:+ nl);;
   let temp_dir := path_join h out_dir "temp" in
   ensure_dir d out_dir;;
   ensure_dir d temp_dir;;
   ret (buffer, temp_dir)).

(** [GetImgFromScreen.execute] *)
Definition execute_screen (h : Host) (d : Desktop) (fuel : nat) (start_date end_date : json)
    (buffer_text out_prefix out_dir : string) : MF unit :=
  try_exceptF is_Exception "Error executing tool: "
    (let+ bt := run (tool_setup h d "Get Sentinel2 Image From Screen" start_date end_date
                       buffer_text ("Prefix for Output Files: " +:+ out_prefix +:+ nl)
                       out_dir) in
     let+ polygon := run (fun w => lift (active_view_polygon d w) w) in
     let+ buff := run (buffer_extent h polygon (fst bt)) in
     let+ start_date_iso := run (get_iso_date h start_date) in
     let+ end_date_iso := run (get_iso_date h end_date) in
     let+ scenes := search_stac h fuel (JStr stac_url) (fst buff) start_date_iso end_date_iso
                      stac_collections in
     run (get_data h scenes out_prefix out_dir (snd bt) (snd buff))).

(** The body of [for row in cursor] in [GetImgFromShp.execute]; the prefix
    is [row[0]], which the helpers only ever format into strings. *)
Definition shp_row (h : Host) (fuel : nat) (start_date_iso end_date_iso : string)
    (buffer : float) (out_prefix_field out_dir temp_dir : string) (row : json * Polygon)
  : MF unit :=
  let out_prefix := py_str h (fst row) in
  let+ _ := run (add_message ("Processing " +:+ out_prefix_field +:+ ": " +:+ out_prefix)) in
  let+ buff := run (buffer_extent h (snd row) buffer) in
  let+ scenes := search_stac h fuel (JStr stac_url) (fst buff) start_date_iso end_date_iso
                   stac_collections in
  let+ _ := run (get_data h scenes out_prefix out_dir temp_dir (snd buff)) in
  run (add_message ("Completed " +:+ out_prefix_field +:+ ": " +:+ out_prefix)).

Fixpoint shp_rows (h : Host) (fuel : nat) (start_date_iso end_date_iso : string)
    (buffer : float) (out_prefix_field out_dir temp_dir : string) (rows : list (json * Polygon))
  : MF unit :=
  match rows with
  | [] => run (ret tt)
  | row :: rest =>
      let+ _ := shp_row h fuel start_date_iso end_date_iso buffer out_prefix_field out_dir
                  temp_dir row in
      shp_rows h fuel start_date_iso end_date_iso buffer out_prefix_field out_dir temp_dir rest
  end.

(** [GetImgFromShp.execute] *)
Definition execute_shp (h : Host) (d : Desktop) (fuel : nat) (start_date end_date : json)
    (buffer_text in_fc out_prefix_field out_dir : string) : MF unit :=
  try_exceptF is_Exception "Error executing tool: "
    (let+ bt := run (tool_setup h d "Get Sentinel2 Image From Shapefile" start_date end_date
                       buffer_text
                       ("Input Shapefile or Feature Class: " +:+ in_fc +:+ nl +:+
                        "Field for Prefix: " +:+ out_prefix_field +:+ nl)
                       out_dir) in
     let+ start_date_iso := run (get_iso_date h start_date) in
     let+ end_date_iso := run (get_iso_date h end_date) in
     let+ rows := run (fun w => lift (search_cursor d w in_fc out_prefix_field) w) in
     shp_rows h fuel start_date_iso end_date_iso (fst bt) out_prefix_field out_dir (snd bt) rows).

(** A desktop for the examples: user "gis", every directory can be made,
    the view shows the square, the layer holds the rows given. *)
Definition demo_desktop (rows : list (json * Polygon)) : Desktop :=
  {| getuser := inr "gis";
     float_of_text := λ t, if String.eqb t "250" then inr 250%float
                           else inl (ValueError "could not convert string to float");
     makedirs := λ _ _, None;
     active_view_polygon := λ _, inr Demo.square;
     search_cursor := λ _ _ _, inr rows |}.

Example execute_screen_end_to_end :
  let feature := Demo.feature "S2A_X" (JStr "https://host/a/TCI.tif")
                   (JStr "https://host/a/MTD.xml") in
  let h := Demo.host [inr (Demo.page 1 None [feature]); inr (Demo.page 0 None []); Demo.xml]
             Demo.opens_ok in
  ∃ w', execute_screen h (demo_desktop []) 5 (JStr "2024-05-01") (JStr "2024-05-02")
          "250" "AOI1" "out" Demo.w0 = Some (Returns tt w')
        ∧ fs w' !! "out/AOI1_S2A_X_TCI.tif" = Some "clip of out/temp/S2A_X_TCI.vrt"
        ∧ fs w' !! "out/AOI1_S2A_X_metadata.xml" = Some "<xml/>"
        ∧ is_Some (fs w' !! "out/temp").
Proof.
  intros feature h. eexists. split; [vm_compute; reflexivity|].
  split_and!; [vm_compute; reflexivity..|]. vm_compute. eauto.
Qed.

(** ** One failing feature stops the batch *)

Lemma shp_rows_abort (h : Host) (fuel : nat) (s e' : string) (buffer : float)
    (field out_dir temp_dir : string) (pre : list (json * Polygon)) (row : json * Polygon)
    (post : list (json * Polygon)) (w w1 w2 : World) (e : Exn) :
  shp_rows h fuel s e' buffer field out_dir temp_dir pre w = Some (Returns tt w1) →
  shp_row h fuel s e' buffer field out_dir temp_dir row w1 = Some (Raises e w2) →
  shp_rows h fuel s e' buffer field out_dir temp_dir (pre ++ row :: post) w
  = Some (Raises e w2).
Proof.
  revert w. induction pre as [|r pre IH]; intros w Hpre Hrow.
  { cbn in Hpre. injection Hpre as ->. cbn [app shp_rows]. unfold bindF at 1. by rewrite Hrow. }
  cbn [app shp_rows] in Hpre |- *. unfold bindF at 1 in Hpre. unfold bindF at 1.
  destruct (shp_row h fuel s e' buffer field out_dir temp_dir r w) as [[[] w'|]|]; [|done..].
  by apply IH.
Qed.

(** In the tool that works through the features of a layer, an exception
    in one feature ends the run: it is logged once more as "Error
    executing tool" and raised again, and the features after it are not
    looked at, whatever they are. *)
Theorem execute_shp_aborts (h : Host) (d : Desktop) (fuel : nat) (start_date end_date : json)
    (buffer_text in_fc out_prefix_field out_dir : string) (w wa w1 w2 : World)
    (buffer : float) (temp_dir s e' : string)
    (pre : list (json * Polygon)) (row : json * Polygon) (post : list (json * Polygon))
    (e : Exn) :
  tool_setup h d "Get Sentinel2 Image From Shapefile" start_date end_date buffer_text
    ("Input Shapefile or Feature Class: " +:+ in_fc +:+ nl +:+
     "Field for Prefix: " +:+ out_prefix_field +:+ nl) out_dir w
  = Returns (buffer, temp_dir) wa →
  get_iso_date h start_date wa = Returns s wa →
  get_iso_date h end_date wa = Returns e' wa →
  search_cursor d wa in_fc out_prefix_field = inr (pre ++ row :: post) →
  shp_rows h fuel s e' buffer out_prefix_field out_dir temp_dir pre wa = Some (Returns tt w1) →
  shp_row h fuel s e' buffer out_prefix_field out_dir temp_dir row w1 = Some (Raises e w2) →
  execute_shp h d fuel start_date end_date buffer_text in_fc out_prefix_field out_dir w
  = Some (Raises e (with_log (AddError "Error executing tool: " (Some e)) w2)).
Proof.
  intros Hsetup Hs He Hcur Hpre Hrow.
  unfold execute_shp, try_exceptF. unfold bindF at 1, run at 1. rewrite Hsetup.
  unfold bindF at 1, run at 1. rewrite Hs. unfold bindF at 1, run at 1. rewrite He.
  unfold bindF at 1, run at 1, lift. rewrite Hcur. cbn [fst snd].
  by rewrite (shp_rows_abort _ _ _ _ _ _ _ _ _ _ _ _ _ _ _ Hpre Hrow).
Qed.

Lemma execute_shp_aborts_witness :
  let h := Demo.host [] Demo.opens_ok in
  let rows := [(JStr "AOI1", Demo.square); (JStr "AOI2", Demo.square)] in
  let e := RequestException "connection refused" in
  ∃ w', execute_shp h (demo_desktop rows) 5 (JStr "2024-05-01") (JStr "2024-05-02")
          "250" "parcels.shp" "NAME" "out" Demo.w0 = Some (Raises e w')
        ∧ count_gets (net w') = 1%nat
        ∧ (AddMessage "Processing NAME: AOI1" ∈ log w')
        ∧ (AddMessage "Processing NAME: AOI2" ∉ log w')
        ∧ last (log w') = Some (AddError "Error executing tool: " (Some e)).
Proof.
  intros h rows e.
  set (wa := world_of (tool_setup h (demo_desktop rows) "Get Sentinel2 Image From Shapefile"
                         (JStr "2024-05-01") (JStr "2024-05-02") "250"
                         ("Input Shapefile or Feature Class: " +:+ "parcels.shp" +:+ nl +:+
                          "Field for Prefix: " +:+ "NAME" +:+ nl) "out" Demo.w0)).
  set (w2 := world_of (default (Returns tt wa)
                         (shp_row h 5 "2024-05-01" "2024-05-02" 250 "NAME" "out" "out/temp"
                            (JStr "AOI1", Demo.square) wa))).
  exists (with_log (AddError "Error executing tool: " (Some e)) w2). split.
  - apply (execute_shp_aborts h (demo_desktop rows) 5 (JStr "2024-05-01") (JStr "2024-05-02")
             "250" "parcels.shp" "NAME" "out" Demo.w0 wa wa w2 250 "out/temp"
             "2024-05-01" "2024-05-02" [] (JStr "AOI1", Demo.square)
             [(JStr "AOI2", Demo.square)] e); vm_compute; reflexivity.
  - split_and!.
    + vm_compute. reflexivity.
    + vm_compute. apply list_elem_of_In. cbn. tauto.
    + vm_compute. intros Hin. apply list_elem_of_In in Hin. cbn in Hin.
      repeat (destruct Hin as [Hin|Hin]; [discriminate Hin|]). done.
    + vm_compute. reflexivity.
Defined.

(** ** The directories of a run *)

Lemma ensure_dir_returns (d : Desktop) (dir : string) (w w' : World) :
  ensure_dir d dir w = Returns tt w' →
  is_Some (fs w' !! dir) ∧ (∀ p, is_Some (fs w !! p) → is_Some (fs w' !! p)).
Proof.
  unfold ensure_dir, bind, path_exists, ret, add_message. case_bool_decide as Hex.
  { by intros [= <-]. }
  destruct (makedirs d w dir); [done|]. intros [= <-]. cbn. split.
  - rewrite lookup_insert_eq. eauto.
  - intros p Hp. destruct (decide (dir = p)) as [->|]; [by destruct Hex|].
    by rewrite lookup_insert_ne.
Qed.

Lemma tool_setup_returns (h : Host) (d : Desktop) (label : string) (start_date end_date : json)
    (buffer_text lines out_dir : string) (w w' : World) (buffer : float) (temp_dir : string) :
  tool_setup h d label start_date end_date buffer_text lines out_dir w
  = Returns (buffer, temp_dir) w' →
  temp_dir = path_join h out_dir "temp"
  ∧ is_Some (fs w' !! out_dir) ∧ is_Some (fs w' !! temp_dir)
  ∧ ∀ p, is_Some (fs w !! p) → is_Some (fs w' !! p).
Proof.
  unfold tool_setup. unfold bind at 1, lift at 1.
  destruct (float_of_text d buffer_text) as [|b]; [done|].
  unfold bind at 1, lift at 1. destruct (getuser d) as [|user]; [done|].
  unfold bind at 1, add_message at 1. unfold bind at 1.
  destruct (ensure_dir d out_dir _) as [[] w1|] eqn:E1; [|done].
  unfold bind at 1.
  destruct (ensure_dir d (path_join h out_dir "temp") w1) as [[] w2|] eqn:E2; [|done].
  intros [= <- <- <-].
  apply ensure_dir_returns in E1 as [H1 M1]. apply ensure_dir_returns in E2 as [H2 M2].
  split_and!; [done|by apply M2|done|]. intros p Hp. by apply M2, M1.
Qed.

Lemma get_iso_date_returns (h : Host) (date_str : json) (w w' : World) (s : string) :
  get_iso_date h date_str w = Returns s w' → w' = w.
Proof.
  unfold get_iso_date, try_except, lift. destruct (strftime h date_str _); cbn; congruence.
Qed.

(** When the tool for the current view returns, the output directory and
    its "temp" directory exist and no file that was there before is gone;
    when it raises, the last message is its own diagnostic, "Error
    executing tool", with the exception raised. *)
Theorem execute_screen_outcome (h : Host) (d : Desktop) (fuel : nat)
    (start_date end_date : json) (buffer_text out_prefix out_dir : string) (w w' : World) :
  (execute_screen h d fuel start_date end_date buffer_text out_prefix out_dir w
   = Some (Returns tt w') →
   is_Some (fs w' !! out_dir) ∧ is_Some (fs w' !! path_join h out_dir "temp")
   ∧ ∀ p, is_Some (fs w !! p) → is_Some (fs w' !! p))
  ∧ (∀ e, execute_screen h d fuel start_date end_date buffer_text out_prefix out_dir w
          = Some (Raises e w') →
          ∃ w'', w' = with_log (AddError "Error executing tool: " (Some e)) w'').
Proof.
  unfold execute_screen, try_exceptF. split.
  - unfold bindF at 1, run at 1.
    destruct (tool_setup _ _ _ _ _ _ _ _ w) as [[b t] w1|] eqn:Hsetup; [|done].
    apply tool_setup_returns in Hsetup as (-> & Hout & Htemp & Hmono).
    unfold bindF at 1, run at 1, lift.
    destruct (active_view_polygon d w1) as [|polygon]; [done|].
    unfold bindF at 1, run at 1. cbn [fst snd].
    destruct (buffer_extent h polygon b w1) as [[bb bp] w2|] eqn:Hbuf; [|done].
    apply buffer_extent_returns in Hbuf as ->.
    unfold bindF at 1, run at 1.
    destruct (get_iso_date h start_date w1) as [s w2|] eqn:Hs; [|done].
    apply get_iso_date_returns in Hs as ->.
    unfold bindF at 1, run at 1.
    destruct (get_iso_date h end_date w1) as [s' w2|] eqn:He; [|done].
    apply get_iso_date_returns in He as ->.
    unfold bindF, run. cbn [fst snd].
    destruct (search_stac h fuel _ bb s s' _ w1) as [[scenes w2|]|] eqn:Hsearch; [|done..].
    apply search_stac_effects in Hsearch as [Hfs _]. cbn in Hfs.
    match goal with |- context [get_data ?a ?b ?c ?e ?f ?g w2] =>
      pose proof (get_data_world_grows a b c e f g w2) as (Hgrow & _);
      destruct (get_data a b c e f g w2) as [[] w3|] end; [|done].
    cbn in Hgrow. cbn. intros [= <-].
    split_and!; [apply Hgrow|apply Hgrow|intros p Hp; apply Hgrow]; rewrite Hfs; auto.
  - intros e H.
    match type of H with _ <$> ?m = _ => destruct m as [r|]; [|done] end.
    cbn in H. injection H as H. apply handle_raises in H as (w'' & _ & ->). by exists w''.
Qed.

Lemma execute_screen_outcome_witness :
  let h := Demo.host [inr (Demo.page 0 None [])] Demo.opens_ok in
  ∃ w', execute_screen h (demo_desktop []) 5 (JStr "2024-05-01") (JStr "2024-05-02")
          "250" "AOI1" "out" Demo.w0 = Some (Returns tt w')
        ∧ is_Some (fs w' !! "out") ∧ is_Some (fs w' !! "out/temp").
Proof.
  intros h. eexists. split; [vm_compute; reflexivity|].
  match goal with |- is_Some (fs ?w' !! _) ∧ _ =>
    destruct (execute_screen_outcome h (demo_desktop []) 5 (JStr "2024-05-01")
                (JStr "2024-05-02") "250" "AOI1" "out" Demo.w0 w') as [Hret _];
    destruct Hret as (H1 & H2 & _); [vm_compute; reflexivity|]
  end.
  by split.
Defined.

Lemma shp_row_keeps_files (h : Host) (fuel : nat) (s e' : string) (buffer : float)
    (field out_dir temp_dir : string) (row : json * Polygon) (w w' : World) :
  shp_row h fuel s e' buffer field out_dir temp_dir row w = Some (Returns tt w') →
  ∀ p, is_Some (fs w !! p) → is_Some (fs w' !! p).
Proof.
  unfold shp_row. unfold bindF at 1, run at 1, add_message at 1.
  unfold bindF at 1, run at 1.
  destruct (buffer_extent h (snd row) buffer _) as [[bb bp] w1|] eqn:Hbuf; [|done].
  apply buffer_extent_returns in Hbuf as ->.
  unfold bindF at 1. cbn [fst snd].
  destruct (search_stac h fuel _ bb s e' _ _) as [[scenes w2|]|] eqn:Hsearch; [|done..].
  apply search_stac_effects in Hsearch as [Hfs _]. cbn in Hfs.
  unfold bindF at 1, run at 1.
  match goal with |- context [get_data ?a ?b ?c ?e ?f ?g w2] =>
    pose proof (get_data_world_grows a b c e f g w2) as (Hgrow & _);
    destruct (get_data a b c e f g w2) as [[] w3|] end; [|done].
  cbn in Hgrow. unfold run, add_message. intros [= <-] p Hp. cbn. apply Hgrow.
  by rewrite Hfs.
Qed.

Lemma shp_rows_keeps_files (h : Host) (fuel : nat) (s e' : string) (buffer : float)
    (field out_dir temp_dir : string) (rows : list (json * Polygon)) (w w' : World) :
  shp_rows h fuel s e' buffer field out_dir temp_dir rows w = Some (Returns tt w') →
  ∀ p, is_Some (fs w !! p) → is_Some (fs w' !! p).
Proof.
  revert w. induction rows as [|row rows IH]; intros w.
  { by intros [= <-]. }
  cbn [shp_rows]. unfold bindF at 1.
  destruct (shp_row h fuel s e' buffer field out_dir temp_dir row w) as [[[] w1|]|] eqn:Hrow;
    [|done..].
  intros Hrest p Hp. eapply IH; [exact Hrest|]. by eapply shp_row_keeps_files.
Qed.

(** When the tool for the features of a layer returns, however many
    features it went through, the output directory and its "temp"
    directory exist and no file that was there before is gone; when it
    raises, the last message is "Error executing tool" with the exception
    raised. *)
Theorem execute_shp_outcome (h : Host) (d : Desktop) (fuel : nat)
    (start_date end_date : json) (buffer_text in_fc out_prefix_field out_dir : string)
    (w w' : World) :
  (execute_shp h d fuel start_date end_date buffer_text in_fc out_prefix_field out_dir w
   = Some (Returns tt w') →
   is_Some (fs w' !! out_dir) ∧ is_Some (fs w' !! path_join h out_dir "temp")
   ∧ ∀ p, is_Some (fs w !! p) → is_Some (fs w' !! p))
  ∧ (∀ e, execute_shp h d fuel start_date end_date buffer_text in_fc out_prefix_field out_dir w
          = Some (Raises e w') →
          ∃ w'', w' = with_log (AddError "Error executing tool: " (Some e)) w'').
Proof.
  unfold execute_shp, try_exceptF. split.
  - unfold bindF at 1, run at 1.
    destruct (tool_setup _ _ _ _ _ _ _ _ w) as [[b t] w1|] eqn:Hsetup; [|done].
    apply tool_setup_returns in Hsetup as (-> & Hout & Htemp & Hmono).
    unfold bindF at 1, run at 1.
    destruct (get_iso_date h start_date w1) as [s w2|] eqn:Hs; [|done].
    apply get_iso_date_returns in Hs as ->.
    unfold bindF at 1, run at 1.
    destruct (get_iso_date h end_date w1) as [s' w2|] eqn:He; [|done].
    apply get_iso_date_returns in He as ->.
    unfold bindF at 1, run at 1, lift.
    destruct (search_cursor d w1 in_fc out_prefix_field) as [|rows]; [done|]. cbn [fst snd].
    destruct (shp_rows _ _ _ _ _ _ _ _ rows w1) as [[[] w2|]|] eqn:Hrows; [|done..].
    cbn. intros [= <-].
    pose proof (shp_rows_keeps_files _ _ _ _ _ _ _ _ _ _ _ Hrows) as Hkeep.
    split_and!; auto.
  - intros e H.
    match type of H with _ <$> ?m = _ => destruct m as [r|]; [|done] end.
    cbn in H. injection H as H. apply handle_raises in H as (w'' & _ & ->). by exists w''.
Qed.

Lemma execute_shp_outcome_witness :
  let h := Demo.host [inr (Demo.page 0 None []); inr (Demo.page 0 None [])] Demo.opens_ok in
  let rows := [(JStr "AOI1", Demo.square); (JNum 7, Demo.square)] in
  ∃ w', execute_shp h (demo_desktop rows) 5 (JStr "2024-05-01") (JStr "2024-05-02")
          "250" "parcels.shp" "NAME" "out" Demo.w0 = Some (Returns tt w')
        ∧ is_Some (fs w' !! "out") ∧ is_Some (fs w' !! "out/temp")
        ∧ last (log w') = Some (AddMessage "Completed NAME: 7").
Proof.
  intros h rows. eexists. split; [vm_compute; reflexivity|].
  match goal with |- is_Some (fs ?w' !! _) ∧ _ =>
    destruct (execute_shp_outcome h (demo_desktop rows) 5 (JStr "2024-05-01")
                (JStr "2024-05-02") "250" "parcels.shp" "NAME" "out" Demo.w0 w') as [Hret _];
    destruct Hret as (H1 & H2 & _); [vm_compute; reflexivity|]
  end.
  split_and!; [done|done|vm_compute; reflexivity].
Defined.
